(** * MPAS-Analysis: time series of transport through transects

    A shallow embedding of [mpas_analysis/ocean/time_series_transport.py]:
    the task [TimeSeriesTransport] with its subtasks
    [ComputeTransportSubtask], [CombineTransportSubtask] and
    [PlotTransportSubtask].

    Python integers are [Z], strings are [string], lists are [list],
    the files of the output directory are a [gmap] from file names to
    data sets, task objects live in a store indexed by object identity, and
    a raised exception is the [Raise] case of [result]. *)

From Stdlib Require Import ZArith Lia Ascii.
From stdpp Require Import base option list strings pretty gmap.

Local Open Scope string_scope.
Local Open Scope list_scope.
Local Open Scope Z_scope.

(** ** Exceptions and results *)

(** [IOError] is the class Python 3 also calls [OSError]; a missing file
    ([FileNotFoundError]) is one of its cases. *)
Inductive exn : Type :=
| IndexError
| ValueError
| IOError
| AttributeError
| RuntimeError.

Global Instance exn_eq_dec : EqDecision exn.
Proof. solve_decision. Defined.

Inductive result (A : Type) : Type :=
| Ok (a : A)
| Raise (e : exn).
Arguments Ok {A} a.
Arguments Raise {A} e.

(** ** Strings *)

Module Str.

(** [s.replace(old, new)] for one-character [old] and [new]. *)
Fixpoint replace (old new : Ascii.ascii) (s : string) : string :=
  match s with
  | EmptyString => EmptyString
  | String c r =>
      String (if Ascii.eqb c old then new else c) (replace old new r)
  end.

Fixpoint zeros (n : nat) : string :=
  match n with
  | O => ""
  | S k => String "0"%char (zeros k)
  end.

(** [s.rjust(width, '0')]: zeros on the left up to [width] characters. *)
Definition zfill (width : nat) (s : string) : string :=
  zeros (width - String.length s) +:+ s.

(** ['{:04d}'.format(n)]: the sign, when there is one, counts in the
    width of four. *)
Definition fmt04d (n : Z) : string :=
  if n <? 0
  then "-" +:+ zfill 3 (pretty (Z.abs_N n))
  else zfill 4 (pretty (Z.abs_N n)).

Fixpoint occurs (c : Ascii.ascii) (s : string) : bool :=
  match s with
  | EmptyString => false
  | String d r => Ascii.eqb d c || occurs c r
  end.

End Str.

(** ** Paths

    [posixpath.split], with which [os.makedirs] finds the parents of a
    directory. *)

Module posixpath.

(** [p.rstrip('/')] *)
Fixpoint rstrip (p : string) : string :=
  match p with
  | EmptyString => EmptyString
  | String c r =>
      let stripped := rstrip r in
      if decide (stripped = "" ∧ c = "/"%char) then ""
      else String c stripped
  end.

(** [(p[:i], p[i:])] for [i = p.rfind('/') + 1] *)
Fixpoint cut (p : string) : string * string :=
  match p with
  | EmptyString => ("", "")
  | String c r =>
      let parts := cut r in
      if decide (parts.1 = "")
      then if decide (c = "/"%char) then ("/", r) else ("", String c r)
      else (String c parts.1, parts.2)
  end.

(** [posixpath.split(p)]: the head loses its trailing slashes unless it
    has nothing else. *)
Definition split (p : string) : string * string :=
  let parts := cut p in
  let stripped := rstrip parts.1 in
  (if decide (stripped = "") then parts.1 else stripped, parts.2).

End posixpath.

(** ** Configuration

    [MpasAnalysisConfigParser] is not among the source files: a
    configuration is what its getters answer for a section and an option. *)

Record Config : Type := mkConfig {
  getint : string → string → Z;
  get : string → string → string;
  getExpression : string → string → list string;
  has_option : string → string → bool
}.

(** [range(a, b)] *)
Definition range (a b : Z) : list Z :=
  (λ k : nat, a + Z.of_nat k) <$> seq 0 (Z.to_nat (b - a)).

(** [enumerate(l)], counting from [i] *)
Fixpoint enumerate_from {A : Type} (i : nat) (l : list A) : list (nat * A) :=
  match l with
  | [] => []
  | x :: r => (i, x) :: enumerate_from (S i) r
  end.

Definition enumerate {A : Type} (l : list A) : list (nat * A) :=
  enumerate_from 0 l.

(** ** Task objects

    Tasks are objects shared by reference: the combine subtask is mutated
    by [run_after] after other objects already point to it.  The store
    holds every task object built so far; an object's identity is its
    position in the store. *)

Abbreviation oid := nat.

Record ComputeTransport : Type := mkCompute {
  startYear : Z;
  endYear : Z;
  masksSubtask : oid;
  transectsToPlot : list string;
  subprocessCount : Z;
  daskThreads : Z;
  restartFileName : option string
}.

Record CombineTransport : Type := mkCombine {
  startYears : list Z;
  endYears : list Z
}.

Record PlotTransport : Type := mkPlot {
  transportTransectFileName : string;
  transect : string;
  transectIndex : nat;
  controlConfig : option Config;
  xmlFileNames : option (list string)
}.

Record ComputeTransectMasks : Type := mkMasks {
  geojsonFileName : string;
  outFileSuffix : string
}.

(** What each class adds to the attributes of [AnalysisTask]. *)
Inductive TaskFields : Type :=
| Unset
| Masks (m : ComputeTransectMasks)
| Compute (c : ComputeTransport)
| Combine (c : CombineTransport)
| Plot (p : PlotTransport).

Record AnalysisTask : Type := mkTask {
  taskName : string;
  componentName : string;
  tags : list string;
  subtaskName : option string;
  runAfterTasks : list oid;
  subtasks : list oid;
  fields : TaskFields
}.

Abbreviation Store := (list AnalysisTask).

(** ** Effects

    A method runs in a state and may raise; what it did to the state
    before raising stays done. *)
Definition ST (S A : Type) : Type := S → result A * S.

Definition ret {S A : Type} (a : A) : ST S A := λ s, (Ok a, s).

Definition bind {S A B : Type} (m : ST S A) (k : A → ST S B) : ST S B :=
  λ s, match m s with
       | (Ok a, s') => k a s'
       | (Raise e, s') => (Raise e, s')
       end.

Definition raise {S A : Type} (e : exn) : ST S A := λ s, (Raise e, s).

Definition gets {S A : Type} (f : S → A) : ST S A := λ s, (Ok (f s), s).

Definition modify {S : Type} (f : S → S) : ST S unit := λ s, (Ok tt, f s).

Declare Scope task_scope.
Delimit Scope task_scope with task.
Notation "'do' x <- m ; k" := (bind m (λ x, k))
  (at level 10, x name, m at level 100, k at level 200) : task_scope.
Notation "m ;; k" := (bind m (λ _, k))
  (at level 100, k at level 200, right associativity) : task_scope.
Local Open Scope task_scope.

(** Constructors run in the store of task objects. *)
Abbreviation M := (ST Store).

(** [for x in l: body] *)
Fixpoint for_each {S A : Type} (l : list A) (body : A → ST S unit)
  : ST S unit :=
  match l with
  | [] => ret tt
  | x :: r => body x ;; for_each r body
  end.

(** A new object is stored behind every object built before it. *)
Definition new (t : AnalysisTask) : M oid :=
  λ h, (Ok (List.length h), h ++ [t]).

(** Reading an attribute of [self].  A reference held by the program is
    always live, so the [None] case never runs. *)
Definition read (self : oid) : M AnalysisTask :=
  λ h, match h !! self with
       | Some t => (Ok t, h)
       | None => (Raise RuntimeError, h)
       end.

Definition set_fields (self : oid) (f : TaskFields) : M unit :=
  modify (alter (λ t, mkTask (taskName t) (componentName t) (tags t)
                        (subtaskName t) (runAfterTasks t) (subtasks t) f)
            self).

Module AnalysisTask_.

(** Modelled from the spec: the base class [AnalysisTask] is not among the
    source files.  The spec names "run-after constraints" between the
    subtasks of a task: [run_after] records on [self] the task it has to
    wait for, [add_subtask] records a subtask on its parent, both once per
    task, and [__init__] stores the names and starts with no constraint
    and no subtask. *)
Definition __init__ (taskName componentName : string) (tags : list string)
    (subtaskName : option string) : M oid :=
  new (mkTask taskName componentName tags subtaskName [] [] Unset).

Definition run_after (self task : oid) : M unit :=
  modify (alter (λ t,
      if decide (task ∈ runAfterTasks t) then t
      else mkTask (taskName t) (componentName t) (tags t) (subtaskName t)
             (runAfterTasks t ++ [task]) (subtasks t) (fields t)) self).

Definition add_subtask (self subtask : oid) : M unit :=
  modify (alter (λ t,
      if decide (subtask ∈ subtasks t) then t
      else mkTask (taskName t) (componentName t) (tags t) (subtaskName t)
             (runAfterTasks t) (subtasks t ++ [subtask]) (fields t)) self).

End AnalysisTask_.
Import AnalysisTask_.

(** ** Files and what a run leaves behind

    The numbers in the NetCDF files are floating point arrays handled by
    xarray; their types stay abstract ([Row] is the transport through every
    selected transect at one time, [Data] the fields of one history file).
    A data set of the output directory is its Time axis, one [TimeSlice]
    for each index, with the attributes of the variable [transport] and
    the coordinate [transectNames].  A file may or may not have the
    variables [year] and [month] along Time: an entry holds their values
    when the file has them. *)

Record TimeSlice (Row : Type) : Type := mkSlice {
  year : option Z;
  month : option Z;
  values : Row
}.
Arguments mkSlice {Row} _ _ _.
Arguments year {Row} _.
Arguments month {Row} _.
Arguments values {Row} _.

Record Dataset (Row : Type) : Type := mkDataset {
  slices : list (TimeSlice Row);
  attrs : list (string * string);
  transectNames : list string
}.
Arguments mkDataset {Row} _ _ _.
Arguments slices {Row} _.
Arguments attrs {Row} _.
Arguments transectNames {Row} _.

(** A monthly history file, with the year and month that
    [get_files_year_month] reads off it and the names of its variables. *)
Record HistoryFile (Data : Type) : Type := mkHistory {
  fileName : string;
  fileYear : Z;
  fileMonth : Z;
  variables : list string;
  data : Data
}.
Arguments mkHistory {Data} _ _ _ _ _.
Arguments fileName {Data} _.
Arguments fileYear {Data} _.
Arguments fileMonth {Data} _.
Arguments variables {Data} _.
Arguments data {Data} _.

(** The transect mask file, its names already through [decode_strings]. *)
Record MaskFile (Signs : Type) : Type := mkMaskFile {
  maskTransectNames : list string;
  transectEdgeMaskSigns : Signs
}.
Arguments mkMaskFile {Signs} _ _.
Arguments maskTransectNames {Signs} _.
Arguments transectEdgeMaskSigns {Signs} _.

Inductive Event : Type :=
| LogInfo (msg : string)
| LogInfoArray
| LogWarning (msg : string)
| MakeDirs (path : string)
| OpenDataset (path : string)
| WriteNetcdf (path : string)
| ReadFeatureCollection (path : string)
| SaveFig (path : string)
| WriteImageXml (filePrefix thumbnailDescription imageCaption : string).

Record World (Row : Type) : Type := mkWorld {
  files : gmap string (Dataset Row);
  dirs : gset string;
  trace : list Event
}.
Arguments mkWorld {Row} _ _ _.
Arguments files {Row} _.
Arguments dirs {Row} _.
Arguments trace {Row} _.

(** [try: m  except e: pass] *)
Definition try_pass {S : Type} (e : exn) (m : ST S unit) : ST S unit :=
  λ s, match m s with
       | (Raise e', s') =>
           if decide (e' = e) then (Ok tt, s') else (Raise e', s')
       | r => r
       end.

(** The directories of the file system, with those made since the start
    of a call in the order of their making. *)
Definition Dirs : Type := gset string * list string.

(** [os.path.exists(path)] for a directory: the root is always there. *)
Definition dir_exists (path : string) : ST Dirs bool :=
  gets (λ d, bool_decide ((path ≠ "" ∧ posixpath.rstrip path = "")
                          ∨ path ∈ d.1)).

(** [os.mkdir(path)] raises when the directory is there already. *)
Definition mkdir (path : string) : ST Dirs unit :=
  do there <- dir_exists path;
  if there : bool
  then raise IOError
  else modify (λ d, ({[path]} ∪ d.1, d.2 ++ [path])).

(** [os.makedirs(name)]: it makes the parent first when that is missing,
    and then the directory itself.  Every parent is shorter than [name],
    so that a [fuel] of the length of [name] is never used up. *)
Fixpoint makedirs_fuel (fuel : nat) (name : string) : ST Dirs unit :=
  let split := posixpath.split name in
  let split :=
    if decide (split.2 = "") then posixpath.split split.1 else split in
  let head := split.1 in
  let tail := split.2 in
  do there <- dir_exists head;
  if decide (head ≠ "" ∧ tail ≠ "" ∧ there = false)
  then
    match fuel with
    | O => ret tt
    | S fuel =>
        (* try: makedirs(head)  except FileExistsError: pass *)
        try_pass IOError (makedirs_fuel fuel head)
    end;;
    if decide (tail = ".") then ret tt else mkdir name
  else mkdir name.

(** What the machine and the helper modules that are not among the source
    files hand to this module. *)
Record Env : Type := mkEnv {
  cpu_count : Z;                                (* multiprocessing.cpu_count() *)
  get_region_mask : Config → string → string;   (* path of a geojson file *)
  get_feature_list : string → list string;      (* names in a geojson file *)
  build_config_full_path : Config → string → string → string;
  (* what xarray makes of a coordinate [transectNames] that differs
     between the files it joins along Time *)
  concat_transectNames : list (list string) → list string
}.

Section IO.
Context {Row : Type}.

Definition emit (e : Event) : ST (World Row) unit :=
  modify (λ w, mkWorld (files w) (dirs w) (trace w ++ [e])).

(** [os.path.exists(path)] *)
Definition path_exists (path : string) : ST (World Row) bool :=
  gets (λ w, bool_decide (is_Some (files w !! path))).

(** [os.makedirs(name)] in a world: every directory made is logged. *)
Definition makedirs (name : string) : ST (World Row) unit :=
  λ w, let run := makedirs_fuel (String.length name) name (dirs w, []) in
       (run.1, mkWorld (files w) run.2.1 (trace w ++ (MakeDirs <$> run.2.2))).

(** Opening a data set of the output directory. *)
Definition open_dataset (path : string) : ST (World Row) (Dataset Row) :=
  λ w, match files w !! path with
       | Some ds =>
           (Ok ds, mkWorld (files w) (dirs w) (trace w ++ [OpenDataset path]))
       | None => (Raise IOError, w)
       end.

Definition write_netcdf (ds : Dataset Row) (path : string)
  : ST (World Row) unit :=
  modify (λ w, mkWorld (<[path := ds]> (files w)) (dirs w)
                 (trace w ++ [WriteNetcdf path])).

Fixpoint open_each (paths : list string)
  : ST (World Row) (list (Dataset Row)) :=
  match paths with
  | [] => ret []
  | path :: r =>
      do ds <- open_dataset path;
      do dss <- open_each r;
      ret (ds :: dss)
  end.

(** [xarray.open_mfdataset(paths, combine='nested', concat_dim='Time')]:
    the data sets in the order of [paths], joined along Time, with the
    attributes of the first.  A coordinate [transectNames] that all of
    them share is kept; one that differs between them is joined by
    xarray.  No path at all is an error. *)
Definition open_mfdataset (env : Env) (paths : list string)
  : ST (World Row) (Dataset Row) :=
  match paths with
  | [] => raise IOError
  | _ =>
      do dss <- open_each paths;
      match dss with
      | [] => raise IOError
      | ds :: _ =>
          ret (mkDataset (dss ≫= slices) (attrs ds)
                 (if decide (Forall (λ other, transectNames other
                                              = transectNames ds) dss)
                  then transectNames ds
                  else concat_transectNames env (transectNames <$> dss)))
      end
  end.

End IO.

(** Every task of one analysis shares the configuration object of its
    parent; it is passed along instead of being stored in each object. *)

Module ComputeTransectMasksSubtask.

(** Modelled from the spec: the class lives in [mpas_analysis.shared.transects],
    which is not among the source files.  It is one more subtask of the
    parent, built from the transect file and a file suffix, with no
    run-after constraint of its own. *)
Definition __init__ (parentTask : oid) (geojsonFileName : string)
    (outFileSuffix : string) : M oid :=
  do parent <- read parentTask;
  do self <- AnalysisTask_.__init__ (taskName parent) (componentName parent)
               (tags parent) (Some "computeTransectMasks");
  set_fields self (Masks (mkMasks geojsonFileName outFileSuffix));;
  ret self.

End ComputeTransectMasksSubtask.

Module ComputeTransportSubtask.

Definition __init__ (env : Env) (config : Config) (parentTask : oid)
    (startYear endYear : Z) (masksSubtask : oid)
    (transectsToPlot : list string) : M oid :=
  do parent <- read parentTask;
  do self <- AnalysisTask_.__init__ (taskName parent) (componentName parent)
               (tags parent)
               (Some ("computeTransport_" +:+ Str.fmt04d startYear +:+ "-"
                        +:+ Str.fmt04d endYear));
  run_after self masksSubtask;;
  do me <- read self;
  let parallelTaskCount := getint config "execute" "parallelTaskCount" in
  let subprocessCount := getint config (taskName me) "subprocessCount" in
  let daskThreads := getint config (taskName me) "daskThreads" in
  set_fields self
    (Compute (mkCompute startYear endYear masksSubtask transectsToPlot
                (Z.min parallelTaskCount subprocessCount)
                (Z.min (cpu_count env) daskThreads)
                None));;
  ret self.

(** What [self.runStreams.readpath('restart')] does.  The streams module
    is not among the source files; the [except ValueError] clause of
    [setup_and_check] shows how it reports that no file was found. *)
Inductive readpath_result : Type :=
| RaisesValueError
| Returns (paths : list string).

(** [setup_and_check].  The setup of the base class and its
    [check_analysis_enabled] are not among the source files either; each is
    given by what it returns or raises. *)
Definition setup_and_check (super_setup : result unit)
    (check_analysis_enabled : result unit)
    (readpath_restart : readpath_result)
    (self : ComputeTransport) : result ComputeTransport :=
  match super_setup with
  | Raise e => Raise e
  | Ok _ =>
      match check_analysis_enabled with
      | Raise e => Raise e
      | Ok _ =>
          (* try: self.restartFileName = ...readpath('restart')[0] *)
          match readpath_restart with
          | RaisesValueError => Raise IOError
          | Returns [] => Raise IndexError
          | Returns (path :: _) =>
              Ok (mkCompute (startYear self) (endYear self)
                    (masksSubtask self) (transectsToPlot self)
                    (subprocessCount self) (daskThreads self) (Some path))
          end
      end
  end.

(** The variables to load, chosen from the first input file. *)
Definition choose_variables (present : list string)
  : list string * list Event :=
  let variableList := ["timeMonthly_avg_layerThickness"] in
  if decide ("timeMonthly_avg_normalTransportVelocity" ∈ present)
  then (variableList ++ ["timeMonthly_avg_normalTransportVelocity"], [])
  else if decide ("timeMonthly_avg_normalGMBolusVelocity" ∈ present)
  then (variableList ++ ["timeMonthly_avg_normalVelocity";
                         "timeMonthly_avg_normalGMBolusVelocity"], [])
  else (variableList ++ ["timeMonthly_avg_normalVelocity"],
        [LogWarning
           "Cannot compute transport velocity. Using advection velocity."]).

(** [numpy.count_nonzero(numpy.logical_and(y == years, m == months))] *)
Definition count_nonzero_mask (y m : Z) (years months : list Z) : nat :=
  List.length
    (filter (λ ym : Z * Z, y = ym.1 ∧ m = ym.2) (zip years months)).

(** The loop over the Time axis of the existing output: it stops at the
    first index that no input file matches.  [dsOut.year] and
    [dsOut.month] raise [AttributeError] when the file has no such
    variable. *)
Fixpoint output_covered {Row : Type} (dsOut : list (TimeSlice Row))
    (years months : list Z) : result bool :=
  match dsOut with
  | [] => Ok true
  | slice :: rest =>
      match year slice, month slice with
      | Some y, Some m =>
          if decide (count_nonzero_mask y m years months = 0%nat)
          then Ok false
          else output_covered rest years months
      | _, _ => Raise AttributeError
      end
  end.

(** The first index at which [transect] occurs from [index] on. *)
Fixpoint find_transect (transect : string) (index : nat)
    (transectNames : list string) : option nat :=
  match transectNames with
  | [] => None
  | otherName :: rest =>
      if decide (transect = otherName) then Some index
      else find_transect transect (S index) rest
  end.

Section Run.
Context {Data Mesh Signs Row : Type}.

(** The array arithmetic of [run_task] (velocity, layer thickness on
    edges, the sum over edges and levels, the conversion to Sv) for the
    Time entry of one history file: what xarray and numpy compute from the
    loaded variables, the mesh, the mask signs and the selected transects. *)
Variable transport : list string → Data → Mesh → Signs → list nat → Row.

(** [outputValid] as [run_task] has it when it reaches line 298. *)
Definition outputValid (outFileName : string) (years months : list Z)
  : ST (World Row) bool :=
  do outputExists <- path_exists outFileName;
  if outputExists : bool
  then
    do dsOut <- open_dataset outFileName;
    λ w, (output_covered (slices dsOut) years months, w)
  else ret false.

(** The loop over [transectsToPlot], with the two lists it appends to. *)
Fixpoint select_transects (toPlot transectNames : list string)
    (transectIndices : list nat) (outTransectNames : list string)
  : ST (World Row) (list nat * list string) :=
  match toPlot with
  | [] => ret (transectIndices, outTransectNames)
  | transect :: rest =>
      match find_transect transect 0 transectNames with
      | Some index =>
          select_transects rest transectNames (transectIndices ++ [index])
            (outTransectNames ++ [transect])
      | None =>
          emit (LogWarning ("transect " +:+ transect
                              +:+ " was not found in transect masks"));;
          select_transects rest transectNames transectIndices
            outTransectNames
      end
  end.

Definition outFileName_of (env : Env) (config : Config)
    (startYear endYear : Z) : string :=
  let outputDirectory :=
    build_config_full_path env config "output" "timeseriesSubdirectory"
      +:+ "/transport/" in
  outputDirectory +:+ "/transport_" +:+ Str.fmt04d startYear +:+ "-"
    +:+ Str.fmt04d endYear +:+ ".nc".

Definition run_task (env : Env) (config : Config) (self : ComputeTransport)
    (inputFiles : list (HistoryFile Data))
    (dsMesh : Mesh) (maskFileName : string) (dsTransectMask : MaskFile Signs)
  : ST (World Row) unit :=
  emit (LogInfo "Computing time series of transport through transects...");;
  emit (LogInfo "  Load transport velocity data...");;
  let outputDirectory :=
    build_config_full_path env config "output" "timeseriesSubdirectory"
      +:+ "/transport/" in
  try_pass IOError (makedirs outputDirectory);;
  let outFileName := outFileName_of env config (startYear self) (endYear self) in
  let years := fileYear <$> inputFiles in
  let months := fileMonth <$> inputFiles in
  match inputFiles with
  | [] => raise IndexError
  | first :: _ =>
      emit (OpenDataset (fileName first));;
      let chosen := choose_variables (variables first) in
      let variableList := chosen.1 in
      for_each chosen.2 emit;;
      do valid <- outputValid outFileName years months;
      if valid : bool
      then emit (LogInfo "  Time series exists -- Done.")
      else
        for_each inputFiles (λ f, emit (OpenDataset (fileName f)));;
        match restartFileName self with
        | None => raise ValueError      (* no file name to open *)
        | Some restart =>
            emit (OpenDataset restart);;
            emit (OpenDataset maskFileName);;
            do selected <-
              select_transects (transectsToPlot self)
                (maskTransectNames dsTransectMask) [] [];
            let transectIndices := selected.1 in
            let outTransectNames := selected.2 in
            (* the Time axis of the result is that of the concatenated
               input: one entry for each history file; neither [year] nor
               [month] is put into [dsOut] *)
            let dsOut :=
              mkDataset
                ((λ f, mkSlice None None
                         (transport variableList (data f) dsMesh
                            (transectEdgeMaskSigns dsTransectMask)
                            transectIndices)) <$> inputFiles)
                [("units", "Sv");
                 ("description", "Transport through transects")]
                outTransectNames in
            emit LogInfoArray;;
            write_netcdf dsOut outFileName
        end
  end.

End Run.

End ComputeTransportSubtask.

Module CombineTransportSubtask.

Definition __init__ (parentTask : oid) (startYears endYears : list Z)
  : M oid :=
  do parent <- read parentTask;
  do self <- AnalysisTask_.__init__ (taskName parent) (componentName parent)
               (tags parent) (Some "combineTimeSeries");
  set_fields self (Combine (mkCombine startYears endYears));;
  ret self.

Section Run.
Context {Row : Type}.

Definition first_item (l : list Z) : ST (World Row) Z :=
  match l with
  | [] => raise IndexError
  | x :: _ => ret x
  end.

Definition last_item (l : list Z) : ST (World Row) Z :=
  match last l with
  | None => raise IndexError
  | Some x => ret x
  end.

Definition fileName_of (outputDirectory : string) (startYear endYear : Z)
  : string :=
  outputDirectory +:+ "/transport_" +:+ Str.fmt04d startYear +:+ "-"
    +:+ Str.fmt04d endYear +:+ ".nc".

Definition run_task (env : Env) (config : Config) (self : CombineTransport)
  : ST (World Row) unit :=
  let outputDirectory :=
    build_config_full_path env config "output" "timeseriesSubdirectory"
      +:+ "/transport/" in
  do y0 <- first_item (startYears self);
  do y1 <- last_item (endYears self);
  let outFileName := fileName_of outputDirectory y0 y1 in
  do there <- path_exists outFileName;
  if there : bool
  then ret tt
  else
    let inFileNames :=
      (λ se : Z * Z, fileName_of outputDirectory se.1 se.2)
        <$> zip (startYears self) (endYears self) in
    do ds <- open_mfdataset env inFileNames;
    write_netcdf ds outFileName.

End Run.

End CombineTransportSubtask.

Module PlotTransportSubtask.

Definition __init__ (parentTask : oid) (transect : string)
    (transectIndex : nat) (controlConfig : option Config)
    (transportTransectFileName : string) : M oid :=
  do parent <- read parentTask;
  do self <- AnalysisTask_.__init__ (taskName parent) (componentName parent)
               (tags parent)
               (Some ("plotTransport_" +:+ Str.replace " " "_" transect));
  set_fields self
    (Plot (mkPlot transportTransectFileName transect transectIndex
             controlConfig None));;
  ret self.

(** [setup_and_check]: the setup of the base class, which is not among the
    source files, yields [plotsDirectory] or raises. *)
Definition setup_and_check (super_setup : result string)
    (self : PlotTransport) : result (string * PlotTransport) :=
  match super_setup with
  | Raise e => Raise e
  | Ok plotsDirectory =>
      Ok (plotsDirectory,
          mkPlot (transportTransectFileName self) (transect self)
            (transectIndex self) (controlConfig self)
            (Some [plotsDirectory +:+ "/transport_"
                     +:+ Str.replace " " "_" (transect self) +:+ ".xml"]))
  end.

Section Run.
Context {Row : Type}.

Definition _load_transport (env : Env) (config : Config)
    (self : PlotTransport) : ST (World Row) (Dataset Row) :=
  let baseDirectory :=
    build_config_full_path env config "output" "timeSeriesSubdirectory" in
  let startYear := getint config "timeSeries" "startYear" in
  let endYear := getint config "timeSeries" "endYear" in
  let inFileName :=
    baseDirectory +:+ "/transport/transport_" +:+ Str.fmt04d startYear
      +:+ "-" +:+ Str.fmt04d endYear +:+ ".nc" in
  do dsIn <- open_dataset inFileName;
  (* dsIn.transport.isel(nTransects=self.transectIndex): the coordinate
     [transectNames] runs along nTransects *)
  if decide (transectIndex self < List.length (transectNames dsIn))%nat
  then ret dsIn
  else raise IndexError.

(** [config.getint(section, option) if config.has_option(...) else None] *)
Definition getint_if_present (config : Config) (section name : string)
  : option Z :=
  if has_option config section name
  then Some (getint config section name)
  else None.

Definition run_task (env : Env) (config : Config) (taskName : string)
    (plotsDirectory : string) (self : PlotTransport)
  : ST (World Row) unit :=
  emit (LogInfo (String "010"%char
                   ("Plotting time series of transport through "
                      +:+ transect self +:+ "...")));;
  emit (LogInfo "  Load transport data...");;
  emit (ReadFeatureCollection (transportTransectFileName self));;
  do transport <- _load_transport env config self;
  let mainRunName := get config "runs" "mainRunName" in
  let movingAverageMonths :=
    getint config "timeSeriesTransport" "movingAverageMonths" in
  emit (LogInfo "  Plotting...");;
  let title := Str.replace "_" " " (transect self) in
  let filePrefix :=
    "transport_" +:+ Str.replace " " "_" (transect self) in
  let outFileName := plotsDirectory +:+ "/" +:+ filePrefix +:+ ".png" in
  match controlConfig self with
   | Some control =>
       let controlRunName := get control "runs" "mainRunName" in
       do refTransport <- _load_transport env control self;
       ret tt
   | None => ret tt
   end;;
  let firstYearXTicks :=
    getint_if_present config taskName "firstYearXTicks" in
  let yearStrideXTicks :=
    getint_if_present config taskName "yearStrideXTicks" in
  emit (SaveFig outFileName);;
  let caption := "Transport through the " +:+ title +:+ " Transect" in
  emit (WriteImageXml filePrefix title caption).

End Run.

End PlotTransportSubtask.

Module TimeSeriesTransport.

Definition __init__ (env : Env) (config : Config)
    (controlConfig : option Config) : M oid :=
  do self <- AnalysisTask_.__init__ "timeSeriesTransport" "ocean"
               ["timeSeries"; "transport"] None;
  let startYear := getint config "timeSeries" "startYear" in
  let endYear := getint config "timeSeries" "endYear" in
  let years := range startYear (endYear + 1) in
  let transportTransectFileName :=
    get_region_mask env config "transportTransects.geojson" in
  let transectsToPlot :=
    getExpression config "timeSeriesTransport" "transectsToPlot" in
  let transectsToPlot :=
    if decide ("all" ∈ transectsToPlot)
    then get_feature_list env transportTransectFileName
    else transectsToPlot in
  do masksSubtask <-
    ComputeTransectMasksSubtask.__init__ self transportTransectFileName
      "transportMasks";
  add_subtask self masksSubtask;;
  do combineSubtask <- CombineTransportSubtask.__init__ self years years;
  for_each years (λ year,
    do computeSubtask <-
      ComputeTransportSubtask.__init__ env config self year year
        masksSubtask transectsToPlot;
    add_subtask self computeSubtask;;
    run_after computeSubtask masksSubtask;;
    run_after combineSubtask computeSubtask);;
  for_each (enumerate transectsToPlot) (λ it,
    do plotTransportSubtask <-
      PlotTransportSubtask.__init__ self it.2 it.1 controlConfig
        transportTransectFileName;
    run_after plotTransportSubtask combineSubtask;;
    add_subtask self plotTransportSubtask);;
  ret self.

End TimeSeriesTransport.

(** * The vocabulary of the statements *)

(** ** Task objects as the constructors leave them *)

(** What [ComputeTransportSubtask.__init__] leaves in the store. *)
Definition compute_task (env : Env) (config : Config)
    (parent : AnalysisTask) (startYear endYear : Z) (masksSubtask : oid)
    (transectsToPlot : list string) : AnalysisTask :=
  mkTask (taskName parent) (componentName parent) (tags parent)
    (Some ("computeTransport_" +:+ Str.fmt04d startYear +:+ "-"
             +:+ Str.fmt04d endYear))
    [masksSubtask] []
    (Compute (mkCompute startYear endYear masksSubtask transectsToPlot
                (Z.min (getint config "execute" "parallelTaskCount")
                   (getint config (taskName parent) "subprocessCount"))
                (Z.min (cpu_count env)
                   (getint config (taskName parent) "daskThreads"))
                None)).

(** What [PlotTransportSubtask.__init__] leaves in the store. *)
Definition plot_task (parent : AnalysisTask) (transect : string)
    (transectIndex : nat) (controlConfig : option Config)
    (transportTransectFileName : string) : AnalysisTask :=
  mkTask (taskName parent) (componentName parent) (tags parent)
    (Some ("plotTransport_" +:+ Str.replace " " "_" transect))
    [] []
    (Plot (mkPlot transportTransectFileName transect transectIndex
             controlConfig None)).

Definition add_subtasks (p : AnalysisTask) (ids : list oid) : AnalysisTask :=
  mkTask (taskName p) (componentName p) (tags p) (subtaskName p)
    (runAfterTasks p) (subtasks p ++ ids) (fields p).

Definition add_run_after (c : AnalysisTask) (ids : list oid) : AnalysisTask :=
  mkTask (taskName c) (componentName c) (tags c) (subtaskName c)
    (runAfterTasks c ++ ids) (subtasks c) (fields c).

(** A plot subtask once it has been told to run after object 2. *)
Definition plot_node (ctl : option Config) (file : string)
    (p : AnalysisTask) (it : nat * string) : AnalysisTask :=
  add_run_after (plot_task p it.2 it.1 ctl file) [2%nat].

(** The body of the loop over the years, with [self], [masksSubtask] and
    [combineSubtask] the objects 0, 1 and 2. *)
Definition year_body (env : Env) (config : Config) (T : list string)
    (year : Z) : M unit :=
  do computeSubtask <-
    ComputeTransportSubtask.__init__ env config 0%nat year year 1%nat T;
  add_subtask 0%nat computeSubtask;;
  run_after computeSubtask 1%nat;;
  run_after 2%nat computeSubtask.

(** The body of the loop over the transects. *)
Definition plot_body (ctl : option Config) (file : string)
    (it : nat * string) : M unit :=
  do plotTransportSubtask <-
    PlotTransportSubtask.__init__ 0%nat it.2 it.1 ctl file;
  run_after plotTransportSubtask 2%nat;;
  add_subtask 0%nat plotTransportSubtask.

Section Graph.
Variables (env : Env) (config : Config) (ctl : option Config).

Definition years_of : list Z :=
  range (getint config "timeSeries" "startYear")
    (getint config "timeSeries" "endYear" + 1).

Definition transect_file : string :=
  get_region_mask env config "transportTransects.geojson".

Definition transects_of : list string :=
  if decide ("all" ∈ getExpression config "timeSeriesTransport"
                       "transectsToPlot")
  then get_feature_list env transect_file
  else getExpression config "timeSeriesTransport" "transectsToPlot".

Definition root : AnalysisTask :=
  mkTask "timeSeriesTransport" "ocean" ["timeSeries"; "transport"] None
    [] [] Unset.

Definition masks_node : AnalysisTask :=
  mkTask "timeSeriesTransport" "ocean" ["timeSeries"; "transport"]
    (Some "computeTransectMasks") [] []
    (Masks (mkMasks transect_file "transportMasks")).

Definition compute_ids : list oid := seq 3 (List.length years_of).

Definition plot_ids : list oid :=
  seq (3 + List.length years_of) (List.length transects_of).

Definition combine_node : AnalysisTask :=
  mkTask "timeSeriesTransport" "ocean" ["timeSeries"; "transport"]
    (Some "combineTimeSeries") compute_ids []
    (Combine (mkCombine years_of years_of)).

Definition compute_nodes : Store :=
  (λ y, compute_task env config root y y 1%nat transects_of) <$> years_of.

Definition plot_nodes : Store :=
  plot_node ctl transect_file root <$> enumerate transects_of.

(** The store that the constructor leaves: the task itself, the masks
    subtask, the combine subtask, one compute subtask for each year and
    one plot subtask for each transect. *)
Definition built : Store :=
  add_subtasks root (1%nat :: compute_ids ++ plot_ids)
  :: masks_node :: combine_node :: compute_nodes ++ plot_nodes.

End Graph.

(** [a] has to wait for [b]. *)
Definition runs_after (h : Store) (a b : oid) : Prop :=
  ∃ t, h !! a = Some t ∧ b ∈ runAfterTasks t.

(** Where a task stands in the order of execution, by its class. *)
Definition stage (h : Store) (i : oid) : nat :=
  match fields <$> h !! i with
  | Some (Masks _) => 0
  | Some (Compute _) => 1
  | Some (Combine _) => 2
  | Some (Plot _) => 3
  | Some Unset | None => 4
  end.

(** The class-specific attributes of the objects [ids] of the store. *)
Definition fields_of (h : Store) (ids : list oid)
  : list (option TaskFields) :=
  (λ i, fields <$> h !! i) <$> ids.

(** ** Runs of the subtasks *)


(** Writing a file of the output directory. *)
Definition is_write (e : Event) : bool :=
  match e with
  | WriteNetcdf _ => true
  | _ => false
  end.

(** The file has a year and a month for a Time entry, and some input file
    carries them. *)
Definition matched {Data Row : Type} (inputFiles : list (HistoryFile Data))
    (slice : TimeSlice Row) : Prop :=
  ∃ f, f ∈ inputFiles
       ∧ year slice = Some (fileYear f) ∧ month slice = Some (fileMonth f).

(** The warning logged for a transect that the mask file does not have. *)
Definition not_found (transect : string) : Event :=
  LogWarning ("transect " +:+ transect +:+ " was not found in transect masks").

(** The index of every requested transect that the mask file has. *)
Definition indices_of (names toPlot : list string) : list nat :=
  omap (λ t, ComputeTransportSubtask.find_transect t 0 names) toPlot.

(** The directory of the transport files. *)
Definition outputDirectory_of (env : Env) (config : Config) : string :=
  build_config_full_path env config "output" "timeseriesSubdirectory"
    +:+ "/transport/".

(** What [os.makedirs] does for the transport directory: the directories
    there are afterwards, and those it has made. *)
Definition makedirs_of {Row : Type} (env : Env) (config : Config)
    (w : World Row) : Dirs :=
  (makedirs_fuel (String.length (outputDirectory_of env config))
     (outputDirectory_of env config) (dirs w, [])).2.

(** The directories once [run_task] has made sure its own is there. *)
Definition dirs_after {Row : Type} (env : Env) (config : Config)
    (w : World Row)
  : gset string :=
  (makedirs_of env config w).1.

(** What is logged and opened up to the test of [outputValid]. *)
Definition start_events {Row : Type} (env : Env) (config : Config)
    (w : World Row)
  : list Event :=
  [LogInfo "Computing time series of transport through transects...";
   LogInfo "  Load transport velocity data..."]
  ++ (MakeDirs <$> (makedirs_of env config w).2).

(** [p] is the beginning of [q]. *)
Definition begins (p q : string) : Prop := ∃ rest, q = p +:+ rest.

(** What is logged and opened up to the choice of the variables. *)
Definition prologue {Data Row : Type} (env : Env) (config : Config)
    (w : World Row) (first : HistoryFile Data) : list Event :=
  start_events env config w
  ++ [OpenDataset (fileName first)]
  ++ (ComputeTransportSubtask.choose_variables (variables first)).2.

(** What a run logs and opens before it decides whether to recompute. *)
Definition check_events {Data Row : Type} (env : Env) (config : Config)
    (w : World Row) (first : HistoryFile Data) (out : string) : list Event :=
  prologue env config w first
  ++ (if files w !! out is Some _ then [OpenDataset out] else []).

(** The data set that a recomputation writes. *)
Definition computed {Data Mesh Signs Row : Type}
    (transport : list string → Data → Mesh → Signs → list nat → Row)
    (self : ComputeTransport) (inputFiles : list (HistoryFile Data))
    (first : HistoryFile Data) (dsMesh : Mesh)
    (dsTransectMask : MaskFile Signs) : Dataset Row :=
  mkDataset
    ((λ f, mkSlice None None
             (transport
                (ComputeTransportSubtask.choose_variables (variables first)).1
                (data f) dsMesh (transectEdgeMaskSigns dsTransectMask)
                (indices_of (maskTransectNames dsTransectMask)
                   (transectsToPlot self)))) <$> inputFiles)
    [("units", "Sv"); ("description", "Transport through transects")]
    (filter (λ t, t ∈ maskTransectNames dsTransectMask)
       (transectsToPlot self)).

(** ** Sample inputs *)

Module Sample.

Definition ints : list (string * string * Z) :=
  [("timeSeries", "startYear", 3);
   ("timeSeries", "endYear", 4);
   ("timeSeriesTransport", "movingAverageMonths", 1);
   ("execute", "parallelTaskCount", 4);
   ("timeSeriesTransport", "subprocessCount", 8);
   ("timeSeriesTransport", "daskThreads", 12)].

Definition config : Config :=
  mkConfig
    (λ section name,
       default 0 (snd <$> list_find (λ e, e.1 = (section, name)) ints
                  ≫= λ e, Some e.2))
    (λ _ _, "mainRun")
    (λ _ _, ["Drake Passage"; "Africa-Ant"])
    (λ section name,
       bool_decide (is_Some (list_find (λ e, e.1 = (section, name)) ints))).

Definition env : Env :=
  mkEnv 6 (λ _ name, "/masks/" +:+ name) (λ _, ["A"; "B"; "C"])
    (λ _ _ _, "/out/timeseries") (λ names, concat names).

Definition parent : AnalysisTask :=
  mkTask "timeSeriesTransport" "ocean" ["timeSeries"; "transport"] None
    [] [] Unset.

(** The compute subtask of year 3, after its [setup_and_check]. *)
Definition compute3 : ComputeTransport :=
  mkCompute 3 3 1%nat ["Drake Passage"; "Africa-Ant"; "Drake Passage"] 4 6
    (Some "/run/restart.0003.nc").

Definition out3 : string :=
  "/out/timeseries/transport//transport_0003-0003.nc".

Definition january : HistoryFile unit :=
  mkHistory "/run/hist.0003-01.nc" 3 1
    ["timeMonthly_avg_layerThickness"; "timeMonthly_avg_normalVelocity"] tt.

Definition february : HistoryFile unit :=
  mkHistory "/run/hist.0003-02.nc" 3 2
    ["timeMonthly_avg_layerThickness"; "timeMonthly_avg_normalVelocity"] tt.

Definition mask : MaskFile unit :=
  mkMaskFile ["Tasmania-Ant"; "Drake Passage"; "Drake Passage"] tt.

(** The rows of this sample are the transect indices they were computed
    for. *)
Definition transport (variableList : list string) (d m s : unit)
    (transectIndices : list nat) : list nat := transectIndices.

(** An output of year 3 that holds January only, with the variables
    [year] and [month], which [run_task] itself does not write. *)
Definition janOnly : Dataset (list nat) :=
  mkDataset [mkSlice (Some 3) (Some 1) [1%nat]] [("units", "Sv")]
    ["Drake Passage"].

Definition world (ds : option (Dataset (list nat))) : World (list nat) :=
  mkWorld (if ds is Some d then {[out3 := d]} else ∅) ∅ [].

End Sample.

Module SampleCombine.

Definition year3 : Dataset (list nat) :=
  mkDataset [mkSlice (Some 3) (Some 1) [7%nat];
             mkSlice (Some 3) (Some 2) [8%nat]] [("units", "Sv")]
    ["Drake Passage"].

Definition year4 : Dataset (list nat) :=
  mkDataset [mkSlice (Some 4) (Some 1) [9%nat]] [("units", "Sv")]
    ["Drake Passage"].

Definition out4 : string :=
  "/out/timeseries/transport//transport_0004-0004.nc".

Definition out34 : string :=
  "/out/timeseries/transport//transport_0003-0004.nc".

Definition combine : CombineTransport := mkCombine [3; 4] [3; 4].

(** Both per-year files are there, the combined file is not. *)
Definition bothYears : World (list nat) :=
  mkWorld (<[Sample.out3 := year3]> {[out4 := year4]}) ∅ [].

(** The file of year 4 is missing, and so is the combined file. *)
Definition year3Only : World (list nat) :=
  mkWorld {[Sample.out3 := year3]} ∅ [].

End SampleCombine.

(** ** Names, files and runs of the subtasks taken together *)

(** The characters of a rendered natural number. *)
Definition is_digit (c : Ascii.ascii) : bool :=
  (48 <=? nat_of_ascii c)%nat && (nat_of_ascii c <=? 57)%nat.

Fixpoint all_digits (s : string) : bool :=
  match s with
  | EmptyString => true
  | String c r => is_digit c && all_digits r
  end.

(** The file that [_load_transport] opens for a configuration. *)
Definition transport_file (env : Env) (config : Config) : string :=
  build_config_full_path env config "output" "timeSeriesSubdirectory"
    +:+ "/transport/transport_"
    +:+ Str.fmt04d (getint config "timeSeries" "startYear") +:+ "-"
    +:+ Str.fmt04d (getint config "timeSeries" "endYear") +:+ ".nc".

(** [outputValid] as a test on the files. *)
Definition up_to_date {Data Row : Type} (env : Env) (config : Config)
    (self : ComputeTransport) (inputFiles : list (HistoryFile Data))
    (w : World Row) : result bool :=
  match files w !! ComputeTransportSubtask.outFileName_of env config
                     (startYear self) (endYear self) with
  | Some ds =>
      ComputeTransportSubtask.output_covered (slices ds)
        (fileYear <$> inputFiles) (fileMonth <$> inputFiles)
  | None => Ok false
  end.

(** The names of the per-year files a combine subtask opens. *)
Definition inFileNames_of (env : Env) (config : Config)
    (self : CombineTransport) : list string :=
  (λ se : Z * Z, CombineTransportSubtask.fileName_of
                   (outputDirectory_of env config) se.1 se.2)
    <$> zip (startYears self) (endYears self).

(** The name of the combined file, when both lists have a year. *)
Definition combined_name (env : Env) (config : Config)
    (self : CombineTransport) : option string :=
  match head (startYears self), last (endYears self) with
  | Some y0, Some y1 =>
      Some (CombineTransportSubtask.fileName_of
              (outputDirectory_of env config) y0 y1)
  | _, _ => None
  end.

(** The file a task object writes when it is a compute subtask. *)
Definition compute_output (env : Env) (config : Config) (t : AnalysisTask)
  : option string :=
  match fields t with
  | Compute c =>
      Some (ComputeTransportSubtask.outFileName_of env config
              (startYear c) (endYear c))
  | _ => None
  end.

(** The combine subtask among the objects of a store. *)
Definition combine_of (t : AnalysisTask) : option CombineTransport :=
  match fields t with
  | Combine c => Some c
  | _ => None
  end.

(** The subtasks of one run, in the order their run-after
    constraints leave: every compute subtask, then the combine
    subtask over the same years. *)
Section PipelineDefs.
Context {Data Mesh Signs Row : Type}.
Variable transport : list string → Data → Mesh → Signs → list nat → Row.
Variables (env : Env) (config : Config).
Variables (dsMesh : Mesh) (maskFileName : string)
  (dsTransectMask : MaskFile Signs).
(** The history files of each compute subtask: a first one and the rest. *)
Variable inputs :
  ComputeTransport → HistoryFile Data * list (HistoryFile Data).

Definition input_list (c : ComputeTransport) : list (HistoryFile Data) :=
  (inputs c).1 :: (inputs c).2.

(** The compute subtasks one after the other, then the combine subtask. *)
Definition run_all (tasks : list ComputeTransport)
  : ST (World Row) unit :=
  for_each tasks (λ c,
    ComputeTransportSubtask.run_task transport env config c (input_list c)
      dsMesh maskFileName dsTransectMask);;
  CombineTransportSubtask.run_task env config
    (mkCombine (startYear <$> tasks) (endYear <$> tasks)).

(** The years a compute subtask covers. *)
Definition span (c : ComputeTransport) : Z * Z := (startYear c, endYear c).

Definition output_of (c : ComputeTransport) : string :=
  ComputeTransportSubtask.outFileName_of env config (startYear c) (endYear c).

Definition computed_of (c : ComputeTransport) : Dataset Row :=
  computed transport c (input_list c) (inputs c).1 dsMesh dsTransectMask.

End PipelineDefs.

(** The XML files a plot subtask declares in [setup_and_check]. *)
Definition xmlFileNames_of (plotsDirectory : string) (self : PlotTransport)
  : option (list string) :=
  match PlotTransportSubtask.setup_and_check (Ok plotsDirectory) self with
  | Ok (_, self') => xmlFileNames self'
  | Raise _ => None
  end.

Module SamplePipeline.

Definition compute (y : Z) : ComputeTransport :=
  mkCompute y y 1%nat ["Drake Passage"; "Africa-Ant"] 4 6
    (Some "/run/restart.0003.nc").

Definition inputs (c : ComputeTransport)
  : HistoryFile unit * list (HistoryFile unit) :=
  (mkHistory "/run/hist.01.nc" (startYear c) 1
     ["timeMonthly_avg_normalTransportVelocity"] tt,
   [mkHistory "/run/hist.02.nc" (startYear c) 2
      ["timeMonthly_avg_normalTransportVelocity"] tt]).

(** The sample configuration with other years. *)
Definition with_years (sy ey : Z) : Config :=
  mkConfig
    (λ section name,
       if decide ((section, name) = ("timeSeries", "startYear")) then sy
       else if decide ((section, name) = ("timeSeries", "endYear")) then ey
       else getint Sample.config section name)
    (get Sample.config) (getExpression Sample.config)
    (has_option Sample.config).

End SamplePipeline.

(** * Properties *)

(** ** Formatting *)

Example fmt04d_year : Str.fmt04d 1850 = "1850".
Proof. reflexivity. Qed.

Example fmt04d_pads : Str.fmt04d 7 = "0007".
Proof. reflexivity. Qed.

Example fmt04d_sign : Str.fmt04d (-5) = "-005".
Proof. reflexivity. Qed.

Example fmt04d_wide : Str.fmt04d 12345 = "12345".
Proof. reflexivity. Qed.

Example replace_spaces :
  Str.replace " " "_" "Drake Passage" = "Drake_Passage".
Proof. reflexivity. Qed.

Example outFileName_sample :
  ComputeTransportSubtask.outFileName_of Sample.env Sample.config 3 3
  = Sample.out3.
Proof. reflexivity. Qed.

(** ** The store *)

Section StoreLemmas.

Lemma alter_new (f : AnalysisTask → AnalysisTask) (h : Store) (t : AnalysisTask) :
  alter f (List.length h) (h ++ [t]) = h ++ [f t].
Proof.
  replace (List.length h) with (List.length h + 0)%nat by lia.
  by rewrite alter_app_r.
Qed.

Lemma lookup_new (h : Store) (t : AnalysisTask) :
  (h ++ [t]) !! List.length h = Some t.
Proof. by rewrite list_lookup_middle. Qed.

End StoreLemmas.

Lemma Compute_init_spec env config (h : Store) parentTask parent
    sy ey masks T :
  h !! parentTask = Some parent →
  ComputeTransportSubtask.__init__ env config parentTask sy ey masks T h
  = (Ok (List.length h), h ++ [compute_task env config parent sy ey masks T]).
Proof.
  intros Hp.
  unfold ComputeTransportSubtask.__init__, bind, read.
  rewrite Hp. cbn [AnalysisTask_.__init__ new].
  unfold run_after, set_fields, modify, ret.
  rewrite alter_new, lookup_new. cbn [runAfterTasks].
  rewrite decide_False by set_solver.
  cbn [taskName componentName tags subtaskName runAfterTasks subtasks
       fields app].
  by rewrite alter_new.
Qed.

(** C6.  For every configuration, [ComputeTransportSubtask.__init__]
    returns a new object whose [subprocessCount] is the minimum of the
    option execute/parallelTaskCount and the task's subprocessCount
    option, and whose [daskThreads] is the minimum of the CPU count of the
    machine and the task's daskThreads option; so the first never exceeds
    parallelTaskCount and the second never exceeds the CPU count. *)
Theorem C6_subprocessCount_daskThreads_minima
    env config (h : Store) parentTask parent sy ey masks T :
  h !! parentTask = Some parent →
  ∃ h' task c,
    ComputeTransportSubtask.__init__ env config parentTask sy ey masks T h
      = (Ok (List.length h), h')
    ∧ h' !! List.length h = Some task
    ∧ fields task = Compute c
    ∧ subprocessCount c
      = Z.min (getint config "execute" "parallelTaskCount")
          (getint config (taskName parent) "subprocessCount")
    ∧ daskThreads c
      = Z.min (cpu_count env) (getint config (taskName parent) "daskThreads")
    ∧ subprocessCount c ≤ getint config "execute" "parallelTaskCount"
    ∧ daskThreads c ≤ cpu_count env.
Proof.
  intros Hp.
  eexists _, _, _.
  split; [by eapply Compute_init_spec|].
  split; [apply lookup_new|].
  split; [reflexivity|].
  cbn [subprocessCount daskThreads]. lia.
Qed.

(** ** Plot subtasks *)

Lemma Plot_init_spec (h : Store) parentTask parent t i ctl file :
  h !! parentTask = Some parent →
  PlotTransportSubtask.__init__ parentTask t i ctl file h
  = (Ok (List.length h), h ++ [plot_task parent t i ctl file]).
Proof.
  intros Hp.
  unfold PlotTransportSubtask.__init__, bind, read.
  rewrite Hp. cbn [AnalysisTask_.__init__ new].
  unfold set_fields, modify, ret.
  by rewrite alter_new.
Qed.


Lemma load_transport_spec {Row : Type} env config self (w : World Row) :
  PlotTransportSubtask._load_transport env config self w
  = match files w !! transport_file env config with
    | Some ds =>
        (if decide (transectIndex self < List.length (transectNames ds))%nat
         then Ok ds else Raise IndexError,
         mkWorld (files w) (dirs w)
           (trace w ++ [OpenDataset (transport_file env config)]))
    | None => (Raise IOError, w)
    end.
Proof.
  unfold PlotTransportSubtask._load_transport, bind, open_dataset.
  fold (transport_file env config).
  destruct (files w !! transport_file env config) as [ds|]; [|done].
  by case_decide.
Qed.

(** Every way a run of the plot subtask can go. *)
Lemma plot_run_task_spec {Row : Type} env config tName plotsDirectory self
    (w : World Row) :
  let start :=
    [LogInfo (String "010"%char
                ("Plotting time series of transport through "
                   +:+ transect self +:+ "..."));
     LogInfo "  Load transport data...";
     ReadFeatureCollection (transportTransectFileName self)] in
  let filePrefix := "transport_" +:+ Str.replace " " "_" (transect self) in
  let title := Str.replace "_" " " (transect self) in
  let plots :=
    [SaveFig (plotsDirectory +:+ "/" +:+ filePrefix +:+ ".png");
     WriteImageXml filePrefix title
       ("Transport through the " +:+ title +:+ " Transect")] in
  let has_index (ds : Dataset Row) :=
    (transectIndex self < List.length (transectNames ds))%nat in
  let after events := mkWorld (files w) (dirs w) (trace w ++ events) in
  let main := OpenDataset (transport_file env config) in
  PlotTransportSubtask.run_task env config tName plotsDirectory self w
  = match files w !! transport_file env config with
    | None => (Raise IOError, after start)
    | Some ds =>
        if decide (has_index ds)
        then
          match controlConfig self with
          | None =>
              (Ok tt, after (start ++ [main; LogInfo "  Plotting..."]
                               ++ plots))
          | Some control =>
              match files w !! transport_file env control with
              | None =>
                  (Raise IOError,
                   after (start ++ [main; LogInfo "  Plotting..."]))
              | Some ds' =>
                  if decide (has_index ds')
                  then
                    (Ok tt,
                     after (start ++ [main; LogInfo "  Plotting...";
                                      OpenDataset (transport_file env control)]
                              ++ plots))
                  else
                    (Raise IndexError,
                     after (start ++ [main; LogInfo "  Plotting...";
                                      OpenDataset
                                        (transport_file env control)]))
              end
          end
        else (Raise IndexError, after (start ++ [main]))
    end.
Proof.
  cbv zeta. unfold PlotTransportSubtask.run_task.
  unfold bind at 1. unfold emit at 1, modify.
  unfold bind at 1. unfold emit at 1, modify. cbn [files dirs trace].
  unfold bind at 1. unfold emit at 1, modify. cbn [files dirs trace].
  unfold bind at 1. rewrite load_transport_spec. cbn [files dirs trace].
  rewrite <- !app_assoc. cbn [app].
  destruct (files w !! transport_file env config) as [ds|]; [|done].
  case_decide; [|by rewrite <- ?app_assoc].
  unfold bind at 1. unfold emit at 1, modify. cbn [files dirs trace].
  unfold bind at 1. destruct (controlConfig self) as [control|].
  - unfold bind at 1. rewrite load_transport_spec. cbn [files dirs trace].
    destruct (files w !! transport_file env control) as [ds'|].
    + case_decide.
      * unfold ret, bind, emit, modify. cbn [files dirs trace].
        by rewrite <- ?app_assoc.
      * by rewrite <- ?app_assoc.
    + by rewrite <- ?app_assoc.
  - unfold ret, bind, emit, modify. cbn [files dirs trace].
    by rewrite <- ?app_assoc.
Qed.


(** ** Paths and directories *)

Lemma cut_app (p : string) : p = (posixpath.cut p).1 +:+ (posixpath.cut p).2.
Proof.
  induction p as [|c r IH]; [done|]. cbn [posixpath.cut].
  case_decide as Hh.
  - case_decide as Hc; [by subst c|done].
  - cbn [fst snd]. change (String c r = String c ((posixpath.cut r).1
                                                   +:+ (posixpath.cut r).2)).
    by rewrite <- IH.
Qed.

Lemma begins_refl (p : string) : begins p p.
Proof.
  exists "". induction p as [|c r IH]; [done|].
  change (String c r = String c (r +:+ "")). by rewrite <- IH.
Qed.

Lemma append_assoc (p q r : string) : (p +:+ q) +:+ r = p +:+ (q +:+ r).
Proof.
  induction p as [|c p IH]; [done|].
  change (String c ((p +:+ q) +:+ r) = String c (p +:+ (q +:+ r))).
  by rewrite IH.
Qed.

Lemma begins_trans (p q r : string) : begins p q → begins q r → begins p r.
Proof.
  intros [a ->] [b ->]. exists (a +:+ b). apply append_assoc.
Qed.

Lemma rstrip_begins (p : string) : begins (posixpath.rstrip p) p.
Proof.
  induction p as [|c r [rest IH]]; [by exists ""|]. cbn [posixpath.rstrip].
  case_decide.
  - by eexists.
  - exists rest.
    change (String c r = String c (posixpath.rstrip r +:+ rest)).
    by rewrite <- IH.
Qed.

Lemma begins_length (p q : string) :
  begins p q → (String.length p ≤ String.length q)%nat.
Proof.
  intros [rest ->]. induction p as [|c p IH].
  - change (0 ≤ String.length rest)%nat. lia.
  - change (S (String.length p) ≤ S (String.length (p +:+ rest)))%nat. lia.
Qed.

Lemma split_begins (p : string) : begins (posixpath.split p).1 p.
Proof.
  assert (begins (posixpath.cut p).1 p) as Hcut.
  { exists (posixpath.cut p).2. apply cut_app. }
  unfold posixpath.split. cbn [fst]. case_decide; [done|].
  eapply begins_trans; [apply rstrip_begins|done].
Qed.

Lemma split_length (p : string) :
  (posixpath.split p).2 ≠ "" →
  (String.length (posixpath.split p).1 < String.length p)%nat.
Proof.
  unfold posixpath.split. cbn [fst snd]. intros Htail.
  assert (String.length (posixpath.cut p).1 < String.length p)%nat as Hcut.
  { rewrite (cut_app p) at 2.
    destruct (posixpath.cut p) as [h t]. cbn [fst snd] in *.
    destruct t as [|c t]; [done|]. clear.
    induction h as [|d h IH].
    - change (0 < S (String.length t))%nat. lia.
    - change (S (String.length h)
              < S (String.length (h +:+ String c t)))%nat.
      lia. }
  case_decide; [done|].
  pose proof (begins_length _ _ (rstrip_begins (posixpath.cut p).1)). lia.
Qed.

(** The parent that [os.makedirs] looks at, and the last component. *)
Lemma parent_begins (name : string) :
  let split := posixpath.split name in
  let split :=
    if decide (split.2 = "") then posixpath.split split.1 else split in
  begins split.1 name
  ∧ (split.2 ≠ "" → (String.length split.1 < String.length name)%nat).
Proof.
  cbv zeta. case_decide as Htail.
  - split.
    + eapply begins_trans; apply split_begins.
    + intros Hne. apply split_length in Hne.
      pose proof (begins_length _ _ (split_begins name)). lia.
  - split; [apply split_begins|]. intros _. by apply split_length.
Qed.

Lemma mkdir_spec (path : string) (d : gset string) (made0 : list string) :
  ∃ r made,
    mkdir path (d, made0) = (r, (list_to_set made ∪ d, made0 ++ made))
    ∧ (r = Ok tt ∨ r = Raise IOError)
    ∧ Forall (λ p, p ∉ d ∧ p = path) made
    ∧ (posixpath.rstrip path ≠ "" → path ∈ list_to_set made ∪ d).
Proof.
  unfold mkdir, bind, dir_exists, gets. cbn [fst snd].
  case_bool_decide as Hthere.
  - exists (Raise IOError), []. unfold raise. cbn [list_to_set].
    rewrite app_nil_r, (left_id_L ∅ (∪)).
    split; [done|]. split; [by right|]. split; [constructor|].
    intros Hroot. destruct Hthere as [[_ ?]|?]; [done|set_solver].
  - exists (Ok tt), [path]. unfold modify. cbn [fst snd list_to_set].
    rewrite (right_id_L ∅ (∪)).
    split; [done|]. split; [by left|]. split; [|set_solver].
    apply Forall_singleton. split; [|done]. intros Hin. apply Hthere. by right.
Qed.

Lemma makedirs_fuel_spec (fuel : nat) :
  ∀ (name : string) (d : gset string) (made0 : list string),
    ∃ r made,
      makedirs_fuel fuel name (d, made0)
      = (r, (list_to_set made ∪ d, made0 ++ made))
      ∧ (r = Ok tt ∨ r = Raise IOError)
      ∧ Forall (λ p, p ∉ d ∧ begins p name) made
      ∧ (let split := posixpath.split name in
         let split :=
           if decide (split.2 = "") then posixpath.split split.1 else split in
         split.2 ≠ "." → posixpath.rstrip name ≠ "" →
         name ∈ list_to_set made ∪ d).
Proof.
  induction fuel as [|fuel IH]; intros name d made0.
  all: destruct (parent_begins name) as [Hbegins _]; cbv zeta in Hbegins.
  all: cbn [makedirs_fuel]; cbv zeta.
  all: set (parts := if decide ((posixpath.split name).2 = "")
                     then posixpath.split (posixpath.split name).1
                     else posixpath.split name) in *.
  all: unfold bind at 1; unfold dir_exists at 1, gets; cbn [fst snd].
  all: set (there := bool_decide _).
  all: case_decide as Hcond.
  all: try (destruct (mkdir_spec name d made0)
              as (r & made & Hrun & Hr & Hmade & Hin);
            exists r, made; split; [exact Hrun|]; split; [exact Hr|];
            split; [|intros _; exact Hin];
            eapply Forall_impl; [exact Hmade|];
            intros p [Hp ->]; split; [done|apply begins_refl]).
  - (* no fuel: the parent is left alone *)
    unfold bind at 1, ret. case_decide as Hdot.
    + exists (Ok tt), []. cbn [list_to_set].
      rewrite app_nil_r, (left_id_L ∅ (∪)).
      split; [done|]. split; [by left|]. split; [constructor|].
      intros Hne. done.
    + destruct (mkdir_spec name d made0)
        as (r & made & Hrun & Hr & Hmade & Hin).
      exists r, made. split; [exact Hrun|]. split; [exact Hr|].
      split; [|intros _; exact Hin].
      eapply Forall_impl; [exact Hmade|].
      intros p [Hp ->]. split; [done|apply begins_refl].
  - destruct (IH parts.1 d made0) as (r1 & made1 & Hrun1 & Hr1 & Hmade1 & _).
    assert (try_pass IOError (makedirs_fuel fuel parts.1) (d, made0)
            = (Ok tt, (list_to_set made1 ∪ d, made0 ++ made1))) as Hstep.
    { unfold try_pass. rewrite Hrun1.
      destruct Hr1 as [-> | ->]; [done|]. by rewrite decide_True. }
    unfold bind at 1. rewrite Hstep.
    assert (Forall (λ p, p ∉ d ∧ begins p name) made1) as Hmade1'.
    { eapply Forall_impl; [exact Hmade1|]. intros p [Hp Hb].
      split; [done|]. by eapply begins_trans. }
    case_decide as Hdot.
    + exists (Ok tt), made1. split; [done|]. split; [by left|].
      split; [exact Hmade1'|]. intros Hne. done.
    + destruct (mkdir_spec name (list_to_set made1 ∪ d) (made0 ++ made1))
        as (r & made & Hrun & Hr & Hmade & Hin).
      exists r, (made1 ++ made). rewrite Hrun. split.
      { f_equal. f_equal; [|by rewrite app_assoc].
        rewrite list_to_set_app_L. set_solver. }
      split; [exact Hr|]. split.
      * apply Forall_app. split; [exact Hmade1'|].
        eapply Forall_impl; [exact Hmade|]. intros p [Hp ->].
        split; [set_solver|apply begins_refl].
      * intros _ Hroot. specialize (Hin Hroot). set_solver.
Qed.

Lemma append_not_nil_r (p s : string) : s ≠ "" → p +:+ s ≠ "".
Proof. intros Hs. by destruct p. Qed.

Lemma cut_app_r (p s : string) :
  (posixpath.cut s).1 ≠ "" →
  posixpath.cut (p +:+ s) = (p +:+ (posixpath.cut s).1, (posixpath.cut s).2).
Proof.
  intros Hs. induction p as [|c p IH].
  { change (posixpath.cut s = ((posixpath.cut s).1, (posixpath.cut s).2)).
    by destruct (posixpath.cut s). }
  change (posixpath.cut (String c (p +:+ s))
          = (String c (p +:+ (posixpath.cut s).1), (posixpath.cut s).2)).
  cbn [posixpath.cut]. rewrite IH. cbn [fst snd].
  by rewrite decide_False by (by apply append_not_nil_r).
Qed.

Lemma rstrip_app (p s : string) :
  posixpath.rstrip s ≠ "" →
  posixpath.rstrip (p +:+ s) = p +:+ posixpath.rstrip s.
Proof.
  intros Hs. induction p as [|c p IH]; [done|].
  change (posixpath.rstrip (String c (p +:+ s))
          = String c (p +:+ posixpath.rstrip s)).
  cbn [posixpath.rstrip]. rewrite IH.
  rewrite decide_False; [done|]. intros [Hnil _].
  by apply (append_not_nil_r p) in Hs.
Qed.

(** The transport directory is named [.../transport/]: its last
    component is [transport], and it is not the root. *)
Lemma outputDirectory_leaf env config :
  let name := outputDirectory_of env config in
  let split := posixpath.split name in
  let split :=
    if decide (split.2 = "") then posixpath.split split.1 else split in
  split.2 = "transport" ∧ posixpath.rstrip name ≠ "".
Proof.
  cbv zeta. unfold outputDirectory_of.
  set (base := build_config_full_path env config "output"
                 "timeseriesSubdirectory").
  assert (posixpath.rstrip (base +:+ "/transport/") = base +:+ "/transport")
    as Hstrip by (by rewrite rstrip_app).
  assert (posixpath.split (base +:+ "/transport/")
          = (base +:+ "/transport", "")) as Hsplit.
  { unfold posixpath.split. rewrite cut_app_r by done. cbn [fst snd].
    change (posixpath.cut "/transport/").1 with "/transport/".
    rewrite Hstrip. rewrite decide_False by (by apply append_not_nil_r).
    reflexivity. }
  rewrite Hsplit. cbn [fst snd]. rewrite decide_True by done.
  split.
  - unfold posixpath.split. by rewrite cut_app_r.
  - rewrite Hstrip. by apply append_not_nil_r.
Qed.

(** What [os.makedirs] has done for the transport directory: it never
    fails but on an existing directory, every directory it has made was
    missing and is the transport directory or the beginning of its path,
    and the transport directory is there afterwards. *)
Lemma makedirs_of_spec {Row : Type} env config (w : World Row) :
  ∃ r made,
    makedirs_fuel (String.length (outputDirectory_of env config))
      (outputDirectory_of env config) (dirs w, [])
    = (r, (list_to_set made ∪ dirs w, made))
    ∧ (r = Ok tt ∨ r = Raise IOError)
    ∧ Forall (λ p, p ∉ dirs w ∧ begins p (outputDirectory_of env config)) made
    ∧ outputDirectory_of env config ∈ dirs_after env config w.
Proof.
  destruct (makedirs_fuel_spec
              (String.length (outputDirectory_of env config))
              (outputDirectory_of env config) (dirs w) [])
    as (r & made & Hrun & Hr & Hmade & Hin).
  exists r, made. split; [exact Hrun|]. split; [exact Hr|].
  split; [exact Hmade|].
  unfold dirs_after, makedirs_of. rewrite Hrun. cbn [fst snd].
  destruct (outputDirectory_leaf env config) as [Hleaf Hroot].
  cbv zeta in Hleaf, Hin. apply Hin; [|exact Hroot]. by rewrite Hleaf.
Qed.

(** A fuel of the length of the name is enough: more fuel changes
    nothing. *)
Lemma makedirs_fuel_enough (n : nat) :
  ∀ (name : string) (f1 f2 : nat) (d : Dirs),
    (String.length name ≤ n)%nat → (n ≤ f1)%nat → (n ≤ f2)%nat →
    makedirs_fuel f1 name d = makedirs_fuel f2 name d.
Proof.
  induction n as [|n IH]; intros name f1 f2 d Hlen H1 H2.
  all: destruct (parent_begins name) as [_ Hshort]; cbv zeta in Hshort.
  all: destruct f1 as [|f1], f2 as [|f2]; try lia; try done.
  all: cbn [makedirs_fuel]; cbv zeta.
  all: set (parts := if decide ((posixpath.split name).2 = "")
                     then posixpath.split (posixpath.split name).1
                     else posixpath.split name) in *.
  all: unfold bind, dir_exists, gets; cbn [fst snd].
  all: case_decide as Hcond; [|done].
  all: destruct Hcond as (_ & Htail & _); specialize (Hshort Htail).
  all: try lia.
  all: unfold try_pass.
  all: by rewrite (IH parts.1 f1 f2 d) by lia.
Qed.

(** ** Is the existing output still valid? *)

Section Validity.
Context {Data Row : Type}.
Implicit Types (inputFiles : list (HistoryFile Data)) (w : World Row).

Lemma count_nonzero_mask_pos inputFiles (y m : Z) :
  ComputeTransportSubtask.count_nonzero_mask y m
    (fileYear <$> inputFiles) (fileMonth <$> inputFiles) ≠ 0%nat
  ↔ ∃ f, f ∈ inputFiles ∧ fileYear f = y ∧ fileMonth f = m.
Proof.
  unfold ComputeTransportSubtask.count_nonzero_mask.
  induction inputFiles as [|f r IH]; cbn [fmap list_fmap zip zip_with].
  - split; [done|]. intros (f & Hf & _). by apply elem_of_nil in Hf.
  - rewrite filter_cons. cbn [fst snd]. case_decide as Hym.
    + split; [|done]. intros _. exists f.
      split; [apply list_elem_of_here|]. by destruct Hym.
    + rewrite IH. split.
      * intros (g & Hg & Hy & Hm). exists g.
        split; [by apply list_elem_of_further|done].
      * intros (g & Hg & Hy & Hm). apply elem_of_cons in Hg as [->|Hg].
        -- destruct Hym. by split.
        -- by exists g.
Qed.

Lemma matched_count inputFiles (slice : TimeSlice Row) :
  matched inputFiles slice
  ↔ ∃ y m, year slice = Some y ∧ month slice = Some m
           ∧ ComputeTransportSubtask.count_nonzero_mask y m
               (fileYear <$> inputFiles) (fileMonth <$> inputFiles) ≠ 0%nat.
Proof.
  unfold matched. split.
  - intros (f & Hf & Hy & Hm). exists (fileYear f), (fileMonth f).
    split; [done|]. split; [done|]. apply count_nonzero_mask_pos. by exists f.
  - intros (y & m & Hy & Hm & Hc).
    apply count_nonzero_mask_pos in Hc as (f & Hf & <- & <-). by exists f.
Qed.

(** The test answers "valid" exactly when every Time entry is matched. *)
Lemma output_covered_true inputFiles (dsOut : list (TimeSlice Row)) :
  ComputeTransportSubtask.output_covered dsOut
    (fileYear <$> inputFiles) (fileMonth <$> inputFiles) = Ok true
  ↔ Forall (matched inputFiles) dsOut.
Proof.
  induction dsOut as [|slice rest IH];
    cbn [ComputeTransportSubtask.output_covered].
  - split; [constructor|done].
  - rewrite Forall_cons, matched_count.
    destruct (year slice) as [y|], (month slice) as [m|].
    + case_decide as Hc.
      * split; [done|]. by intros [(? & ? & [= <-] & [= <-] & ?) _].
      * rewrite IH. split; [|tauto]. intros Hrest.
        split; [|done]. by exists y, m.
    + split; [done|]. by intros [(? & ? & _ & ? & _) _].
    + split; [done|]. by intros [(? & ? & ? & _) _].
    + split; [done|]. by intros [(? & ? & ? & _) _].
Qed.

(** It raises exactly when it comes to an entry without year or month
    before any entry that no input file matches; it raises nothing but
    [AttributeError]. *)
Lemma output_covered_raise inputFiles (dsOut : list (TimeSlice Row)) e :
  ComputeTransportSubtask.output_covered dsOut
    (fileYear <$> inputFiles) (fileMonth <$> inputFiles) = Raise e
  ↔ e = AttributeError
    ∧ ∃ pre slice post,
        dsOut = pre ++ slice :: post
        ∧ Forall (matched inputFiles) pre
        ∧ (year slice = None ∨ month slice = None).
Proof.
  induction dsOut as [|slice rest IH];
    cbn [ComputeTransportSubtask.output_covered].
  - split; [done|]. intros (_ & pre & ? & ? & Heq & _). by destruct pre.
  - destruct (year slice) as [y|] eqn:Hy, (month slice) as [m|] eqn:Hm.
    + case_decide as Hc.
      * split; [done|]. intros (_ & pre & s' & post & Heq & Hpre & Hnone).
        destruct pre as [|s0 pre]; simplify_eq/=.
        { destruct Hnone; congruence. }
        apply Forall_cons in Hpre as [Hs _].
        apply matched_count in Hs as (? & ? & ? & ? & ?). congruence.
      * rewrite IH. split.
        -- intros (-> & pre & s' & post & -> & Hpre & Hnone).
           split; [done|]. exists (slice :: pre), s', post.
           split; [done|]. split; [|done]. constructor; [|done].
           apply matched_count. by exists y, m.
        -- intros (-> & pre & s' & post & Heq & Hpre & Hnone).
           split; [done|]. destruct pre as [|s0 pre]; simplify_eq/=.
           { destruct Hnone; congruence. }
           apply Forall_cons in Hpre as [_ Hpre]. by exists pre, s', post.
    + split.
      * intros [= <-]. split; [done|]. exists [], slice, rest. by auto.
      * intros (-> & _). done.
    + split.
      * intros [= <-]. split; [done|]. exists [], slice, rest. by auto.
      * intros (-> & _). done.
    + split.
      * intros [= <-]. split; [done|]. exists [], slice, rest. by auto.
      * intros (-> & _). done.
Qed.

(** Entries without year and month, as [run_task] writes them, make it
    raise whatever the input files are. *)
Lemma output_covered_unlabelled {A : Type} (row : A → Row) (l : list A)
    (years months : list Z) :
  l ≠ [] →
  ComputeTransportSubtask.output_covered
    ((λ x, mkSlice None None (row x)) <$> l) years months
  = Raise AttributeError.
Proof. by destruct l. Qed.

End Validity.

(** ** Selecting the transects *)

Lemma find_transect_Some (t : string) (names : list string) (k i : nat) :
  ComputeTransportSubtask.find_transect t k names = Some i
  ↔ ∃ j, i = (k + j)%nat ∧ names !! j = Some t
         ∧ ∀ j', (j' < j)%nat → names !! j' ≠ Some t.
Proof.
  revert k. induction names as [|n r IH]; intros k;
    cbn [ComputeTransportSubtask.find_transect].
  - split; [done|]. by intros (j & _ & Hj & _).
  - case_decide as Hn.
    + subst n. split.
      * intros [= <-]. exists 0%nat. split; [lia|]. split; [done|]. lia.
      * intros (j & -> & Hj & Hfirst). destruct j as [|j]; [f_equal; lia|].
        destruct (Hfirst 0%nat); [lia|done].
    + rewrite IH. split.
      * intros (j & -> & Hj & Hfirst). exists (S j).
        split; [lia|]. split; [done|].
        intros [|j'] Hlt; cbn; [congruence|]. apply Hfirst. lia.
      * intros (j & -> & Hj & Hfirst). destruct j as [|j].
        { cbn in Hj. congruence. }
        exists j. split; [lia|]. split; [done|].
        intros j' Hlt. apply (Hfirst (S j')). lia.
Qed.

Lemma find_transect_None (t : string) (names : list string) (k : nat) :
  ComputeTransportSubtask.find_transect t k names = None ↔ t ∉ names.
Proof.
  revert k. induction names as [|n r IH]; intros k;
    cbn [ComputeTransportSubtask.find_transect].
  - split; [intros _; apply not_elem_of_nil|done].
  - case_decide as Hn.
    + subst n. split; [done|]. intros Hno. destruct Hno. apply list_elem_of_here.
    + rewrite IH, not_elem_of_cons. tauto.
Qed.

Lemma select_transects_spec {Row : Type} (toPlot names : list string)
    (idx : list nat) (out : list string) (w : World Row) :
  ComputeTransportSubtask.select_transects toPlot names idx out w
  = (Ok (idx ++ indices_of names toPlot,
         out ++ filter (λ t, t ∈ names) toPlot),
     mkWorld (files w) (dirs w)
       (trace w ++ (not_found <$> filter (λ t, t ∉ names) toPlot))).
Proof.
  revert idx out w. induction toPlot as [|t r IH]; intros idx out w;
    cbn [ComputeTransportSubtask.select_transects].
  - unfold ret, indices_of. cbn. rewrite !app_nil_r. by destruct w.
  - unfold indices_of. cbn [omap list_omap]. rewrite !filter_cons.
    destruct (ComputeTransportSubtask.find_transect t 0 names) as [i|] eqn:Hf.
    + assert (t ∈ names) as Hin.
      { apply find_transect_Some in Hf as (j & _ & Hj & _).
        by eapply list_elem_of_lookup_2. }
      rewrite IH. rewrite decide_True by done.
      rewrite decide_False by (intros Hno; by apply Hno).
      by rewrite <- !app_assoc.
    + apply find_transect_None in Hf.
      rewrite decide_False by done. rewrite decide_True by done.
      unfold bind, emit, modify. rewrite IH.
      cbn [files dirs trace fmap list_fmap]. unfold not_found.
      by rewrite <- app_assoc.
Qed.

(** ** A run of [ComputeTransportSubtask.run_task] *)

Section ComputeRun.
Context {Data Mesh Signs Row : Type}.
Variable transport : list string → Data → Mesh → Signs → list nat → Row.
Implicit Types (inputFiles : list (HistoryFile Data)) (w : World Row).

Lemma for_each_emit_map {A : Type} (l : list A) (f : A → Event) w :
  for_each l (λ x, emit (f x)) w
  = (Ok tt, mkWorld (files w) (dirs w) (trace w ++ (f <$> l))).
Proof.
  revert w. induction l as [|x r IH]; intros w; cbn [for_each].
  - unfold ret. cbn. rewrite app_nil_r. by destruct w.
  - unfold bind, emit, modify. rewrite IH. cbn [files dirs trace fmap list_fmap].
    by rewrite <- app_assoc.
Qed.

Lemma for_each_emit (l : list Event) w :
  for_each l emit w = (Ok tt, mkWorld (files w) (dirs w) (trace w ++ l)).
Proof.
  change (for_each l emit w) with (for_each l (λ x, emit (id x)) w).
  by rewrite for_each_emit_map, list_fmap_id.
Qed.

Lemma run_task_start env config w :
  try_pass IOError (makedirs (outputDirectory_of env config))
    (mkWorld (files w) (dirs w)
       (trace w ++ [LogInfo "Computing time series of transport through transects...";
                    LogInfo "  Load transport velocity data..."]))
  = (Ok tt, mkWorld (files w) (dirs_after env config w)
              (trace w ++ start_events env config w)).
Proof.
  destruct (makedirs_of_spec env config w) as (r & made & Hrun & Hr & _).
  unfold try_pass, makedirs, dirs_after, start_events, makedirs_of.
  cbn [dirs files trace]. rewrite Hrun. cbn [fst snd].
  rewrite <- app_assoc.
  destruct Hr as [-> | ->]; [done|]. by rewrite decide_True.
Qed.


Lemma outputValid_spec (out : string) (years months : list Z) w :
  ComputeTransportSubtask.outputValid out years months w
  = match files w !! out with
    | Some ds =>
        (ComputeTransportSubtask.output_covered (slices ds) years months,
         mkWorld (files w) (dirs w) (trace w ++ [OpenDataset out]))
    | None => (Ok false, w)
    end.
Proof.
  unfold ComputeTransportSubtask.outputValid, bind, path_exists, gets,
    open_dataset, ret.
  destruct (files w !! out) as [ds|] eqn:Hout.
  - rewrite bool_decide_eq_true_2 by done. by rewrite Hout.
  - rewrite bool_decide_eq_false_2; [done|]. by intros [? ?].
Qed.

Lemma outputValid_up_to_date env config self inputFiles w :
  (ComputeTransportSubtask.outputValid
     (ComputeTransportSubtask.outFileName_of env config
        (startYear self) (endYear self))
     (fileYear <$> inputFiles) (fileMonth <$> inputFiles) w).1
  = up_to_date env config self inputFiles w.
Proof.
  rewrite outputValid_spec. unfold up_to_date.
  by destruct (files w !! _).
Qed.

Lemma run_task_check env config self inputFiles first rest w
    (k : bool → ST (World Row) unit) :
  inputFiles = first :: rest →
  let out := ComputeTransportSubtask.outFileName_of env config
               (startYear self) (endYear self) in
  let years := fileYear <$> inputFiles in
  let months := fileMonth <$> inputFiles in
  let checked :=
    mkWorld (files w) (dirs_after env config w)
      (trace w ++ check_events env config w first out) in
  (emit (LogInfo "Computing time series of transport through transects...");;
   emit (LogInfo "  Load transport velocity data...");;
   try_pass IOError (makedirs (outputDirectory_of env config));;
   emit (OpenDataset (fileName first));;
   for_each (ComputeTransportSubtask.choose_variables (variables first)).2
     emit;;
   do valid <- ComputeTransportSubtask.outputValid out years months;
   k valid) w
  = match up_to_date env config self inputFiles w with
    | Ok valid => k valid checked
    | Raise e => (Raise e, checked)
    end.
Proof.
  intros -> out years months checked. subst checked.
  unfold bind at 1 2. unfold emit at 1 2. unfold modify.
  cbn [files dirs trace]. rewrite <- app_assoc. cbn [app].
  unfold bind at 1. rewrite run_task_start.
  unfold bind at 1. unfold emit at 1. unfold modify. cbn [files dirs trace].
  unfold bind at 1. rewrite for_each_emit. cbn [files dirs trace].
  unfold bind at 1. rewrite outputValid_spec. cbn [files dirs trace].
  unfold check_events, prologue, up_to_date. fold out years months.
  destruct (files w !! out) as [ds|]; rewrite <- ?app_assoc;
    cbn [app]; rewrite ?app_nil_r; [|done].
  by destruct (ComputeTransportSubtask.output_covered _ _ _).
Qed.

(** The output is there and every Time entry is matched: nothing is
    computed and nothing is written. *)
Lemma run_task_valid env config self inputFiles first rest dsMesh
    maskFileName dsTransectMask w :
  inputFiles = first :: rest →
  let out := ComputeTransportSubtask.outFileName_of env config
               (startYear self) (endYear self) in
  up_to_date env config self inputFiles w = Ok true →
  ComputeTransportSubtask.run_task transport env config self inputFiles
    dsMesh maskFileName dsTransectMask w
  = (Ok tt,
     mkWorld (files w) (dirs_after env config w)
       (trace w ++ check_events env config w first out
          ++ [LogInfo "  Time series exists -- Done."])).
Proof.
  intros -> out Hvalid.
  unfold ComputeTransportSubtask.run_task.
  fold (outputDirectory_of env config).
  erewrite (run_task_check env config self (first :: rest) first rest)
    by done.
  rewrite Hvalid.
  unfold emit, modify. cbn [files dirs trace].
  by rewrite <- app_assoc.
Qed.

(** The test of the output raises: so does the run, and nothing is
    computed or written. *)
Lemma run_task_raises env config self inputFiles first rest dsMesh
    maskFileName dsTransectMask w e :
  inputFiles = first :: rest →
  let out := ComputeTransportSubtask.outFileName_of env config
               (startYear self) (endYear self) in
  up_to_date env config self inputFiles w = Raise e →
  ComputeTransportSubtask.run_task transport env config self inputFiles
    dsMesh maskFileName dsTransectMask w
  = (Raise e,
     mkWorld (files w) (dirs_after env config w)
       (trace w ++ check_events env config w first out)).
Proof.
  intros -> out Hraise.
  unfold ComputeTransportSubtask.run_task.
  fold (outputDirectory_of env config).
  erewrite (run_task_check env config self (first :: rest) first rest)
    by done.
  by rewrite Hraise.
Qed.

(** The output is missing or has an entry that no input file matches: the
    transport is computed and written. *)
Lemma run_task_recompute env config self inputFiles first rest dsMesh
    maskFileName dsTransectMask w restart :
  inputFiles = first :: rest →
  let out := ComputeTransportSubtask.outFileName_of env config
               (startYear self) (endYear self) in
  up_to_date env config self inputFiles w = Ok false →
  restartFileName self = Some restart →
  ComputeTransportSubtask.run_task transport env config self inputFiles
    dsMesh maskFileName dsTransectMask w
  = (Ok tt,
     mkWorld
       (<[out := computed transport self inputFiles first dsMesh
                   dsTransectMask]> (files w))
       (dirs_after env config w)
       (trace w ++ check_events env config w first out
          ++ ((λ f, OpenDataset (fileName f)) <$> inputFiles)
          ++ [OpenDataset restart; OpenDataset maskFileName]
          ++ (not_found
                <$> filter (λ t, t ∉ maskTransectNames dsTransectMask)
                      (transectsToPlot self))
          ++ [LogInfoArray; WriteNetcdf out])).
Proof.
  intros -> out Hinvalid Hrestart.
  unfold ComputeTransportSubtask.run_task.
  fold (outputDirectory_of env config).
  erewrite (run_task_check env config self (first :: rest) first rest)
    by done.
  rewrite Hinvalid, Hrestart.
  unfold bind at 1. rewrite for_each_emit_map. cbn [files dirs trace].
  unfold bind at 1. unfold emit at 1. unfold modify. cbn [files dirs trace].
  unfold bind at 1. unfold emit at 1. unfold modify. cbn [files dirs trace].
  unfold bind at 1. rewrite select_transects_spec. cbn [files dirs trace fst snd app].
  unfold bind at 1. unfold emit at 1. unfold modify. cbn [files dirs trace].
  unfold write_netcdf, modify. cbn [files dirs trace].
  unfold computed. rewrite <- !app_assoc. reflexivity.
Qed.

End ComputeRun.

Lemma indices_of_first_occurrence (names toPlot : list string) :
  Forall2 (λ t i, names !! i = Some t
                  ∧ ∀ j, (j < i)%nat → names !! j ≠ Some t)
    (filter (λ t, t ∈ names) toPlot) (indices_of names toPlot).
Proof.
  unfold indices_of. induction toPlot as [|t r IH]; [constructor|].
  rewrite filter_cons. cbn [omap list_omap].
  destruct (ComputeTransportSubtask.find_transect t 0 names) as [i|] eqn:Hf.
  - apply find_transect_Some in Hf as (j & -> & Hj & Hfirst).
    rewrite decide_True by (by eapply list_elem_of_lookup_2).
    constructor; [|done]. by split.
  - apply find_transect_None in Hf. by rewrite decide_False.
Qed.

Lemma check_events_quiet {Data Row : Type} env config (w : World Row)
    (first : HistoryFile Data) (out : string) :
  Forall (λ e, is_write e = false
               ∧ e ≠ LogInfo "  Time series exists -- Done."
               ∧ e ≠ LogInfoArray
               ∧ ∀ path, e = OpenDataset path →
                   path = out ∨ path = fileName first)
    (check_events env config w first out).
Proof.
  unfold check_events, prologue, start_events,
    ComputeTransportSubtask.choose_variables.
  repeat (apply Forall_app; split).
  - repeat constructor; done.
  - apply Forall_fmap, Forall_true. intros p. cbn. done.
  - apply Forall_singleton. repeat split; [done..|]. intros ? [= <-]. by right.
  - repeat case_decide; cbn [snd]; repeat constructor; done.
  - case_match; [|constructor]. apply Forall_singleton.
    repeat split; [done..|]. intros ? [= <-]. by left.
Qed.

Lemma check_events_no_write {Data Row : Type} env config (w : World Row)
    (first : HistoryFile Data) (out : string) :
  Forall (λ e, is_write e = false) (check_events env config w first out).
Proof.
  eapply Forall_impl; [apply check_events_quiet|]. by intros e [? _].
Qed.

(** C1.  What [run_task] does with the output file that it has written
    itself.  With at least one input file and the restart file known, a
    run that finds no output file computes the transport and writes the
    file: one Time entry for each input file, in their order, and
    neither [year] nor [month].  The next run, with the same input files,
    finds this file, every Time entry of which came from an input file.
    It does not return early: the test of the output raises
    [AttributeError] at [dsOut.year], so that the run logs no "Time series
    exists -- Done.", computes nothing, writes nothing, and leaves every
    file as the first run left it. *)
Theorem C1_own_output_is_not_kept
    {Data Mesh Signs Row : Type}
    (transport : list string → Data → Mesh → Signs → list nat → Row)
    env config self (inputFiles : list (HistoryFile Data)) first rest
    dsMesh maskFileName dsTransectMask (w : World Row) restart :
  let out := ComputeTransportSubtask.outFileName_of env config
               (startYear self) (endYear self) in
  let run := ComputeTransportSubtask.run_task transport env config self
               inputFiles dsMesh maskFileName dsTransectMask in
  inputFiles = first :: rest →
  restartFileName self = Some restart →
  files w !! out = None →
  ∃ w1 w2 dsOut events,
    run w = (Ok tt, w1)
    ∧ files w1 = <[out := dsOut]> (files w)
    ∧ slices dsOut
      = ((λ f, mkSlice None None
                 (transport
                    (ComputeTransportSubtask.choose_variables
                       (variables first)).1
                    (data f) dsMesh (transectEdgeMaskSigns dsTransectMask)
                    (indices_of (maskTransectNames dsTransectMask)
                       (transectsToPlot self)))) <$> inputFiles)
    ∧ run w1 = (Raise AttributeError, w2)
    ∧ files w2 = files w1
    ∧ trace w2 = trace w1 ++ events
    ∧ Forall (λ e, is_write e = false
                   ∧ e ≠ LogInfo "  Time series exists -- Done."
                   ∧ e ≠ LogInfoArray) events.
Proof.
  intros out run Hin Hrestart Hout. subst run.
  eexists _, _, _, _. split.
  { eapply run_task_recompute; [exact Hin| |exact Hrestart].
    unfold up_to_date. fold out. by rewrite Hout. }
  cbn [files]. split; [reflexivity|]. split; [reflexivity|]. split.
  { eapply run_task_raises; [exact Hin|].
    unfold up_to_date. cbn [files]. fold out. rewrite lookup_insert_eq.
    unfold computed. cbn [slices]. rewrite Hin.
    by apply output_covered_unlabelled. }
  cbn [files trace]. split; [reflexivity|]. split; [reflexivity|].
  eapply Forall_impl; [apply check_events_quiet|].
  intros e (? & ? & ? & _). done.
Qed.

Lemma C1_own_output_is_not_kept_witness :
  ∃ w1 w2 dsOut events,
    ComputeTransportSubtask.run_task Sample.transport Sample.env
      Sample.config Sample.compute3 [Sample.january; Sample.february]
      tt "/out/masks.nc" Sample.mask (Sample.world None)
    = (Ok tt, w1)
    ∧ files w1 = <[Sample.out3 := dsOut]> (files (Sample.world None))
    ∧ slices dsOut = [mkSlice None None [1%nat; 1%nat];
                      mkSlice None None [1%nat; 1%nat]]
    ∧ ComputeTransportSubtask.run_task Sample.transport Sample.env
        Sample.config Sample.compute3 [Sample.january; Sample.february]
        tt "/out/masks.nc" Sample.mask w1
      = (Raise AttributeError, w2)
    ∧ files w2 = files w1
    ∧ trace w2 = trace w1 ++ events
    ∧ Forall (λ e, is_write e = false
                   ∧ e ≠ LogInfo "  Time series exists -- Done."
                   ∧ e ≠ LogInfoArray) events.
Proof.
  apply (C1_own_output_is_not_kept Sample.transport Sample.env
           Sample.config Sample.compute3 [Sample.january; Sample.february]
           Sample.january [Sample.february] tt "/out/masks.nc" Sample.mask
           (Sample.world None) "/run/restart.0003.nc");
    reflexivity.
Defined.

(** C8.  The test of an existing output, as [run_task] makes it.  For an
    output file that has a year and a month for each Time entry, the test
    is the one the claim states: the output is valid exactly when every
    Time entry has some input file with the same year and month, further
    input files leave a valid output valid, and a valid output is never
    recomputed or rewritten.  When the test comes to a Time entry without
    year or month it raises [AttributeError], and so does the run, which
    then neither takes the output for valid nor recomputes it.  This is
    what happens with every output file that [run_task] has written
    itself, whatever the input files are. *)
Theorem C8_validity_test
    {Data Mesh Signs Row : Type}
    (transport : list string → Data → Mesh → Signs → list nat → Row)
    env config self (inputFiles : list (HistoryFile Data)) first rest
    dsMesh maskFileName dsTransectMask (w : World Row) :
  let out := ComputeTransportSubtask.outFileName_of env config
               (startYear self) (endYear self) in
  let valid inputFiles :=
    (ComputeTransportSubtask.outputValid out (fileYear <$> inputFiles)
       (fileMonth <$> inputFiles) w).1 in
  let run := ComputeTransportSubtask.run_task transport env config self
               inputFiles dsMesh maskFileName dsTransectMask w in
  inputFiles = first :: rest →
  (valid inputFiles = Ok true
   ↔ ∃ ds, files w !! out = Some ds
           ∧ Forall (matched inputFiles) (slices ds))
  ∧ (∀ newFiles, valid inputFiles = Ok true →
       valid (inputFiles ++ newFiles) = Ok true)
  ∧ (valid inputFiles = Ok true →
       run.1 = Ok tt
       ∧ files run.2 = files w
       ∧ last (trace run.2) = Some (LogInfo "  Time series exists -- Done."))
  ∧ (∀ e, valid inputFiles = Raise e
          ↔ e = AttributeError
            ∧ ∃ ds pre slice post,
                files w !! out = Some ds
                ∧ slices ds = pre ++ slice :: post
                ∧ Forall (matched inputFiles) pre
                ∧ (year slice = None ∨ month slice = None))
  ∧ (∀ e, valid inputFiles = Raise e →
       run.1 = Raise e
       ∧ files run.2 = files w
       ∧ ∀ e', e' ∈ drop (List.length (trace w)) (trace run.2) →
               is_write e' = false
               ∧ e' ≠ LogInfo "  Time series exists -- Done.")
  ∧ (∀ (written : list (HistoryFile Data)) first',
       written ≠ [] →
       files w !! out
       = Some (computed transport self written first' dsMesh
                 dsTransectMask) →
       valid inputFiles = Raise AttributeError).
Proof.
  intros out valid run Hin.
  assert (∀ fs, valid fs = up_to_date env config self fs w) as Hvalid.
  { intros fs. apply outputValid_up_to_date. }
  assert (∀ fs, valid fs = Ok true
                ↔ ∃ ds, files w !! out = Some ds
                        ∧ Forall (matched fs) (slices ds)) as Htrue.
  { intros fs. rewrite Hvalid. unfold up_to_date. fold out.
    destruct (files w !! out) as [ds|].
    - rewrite output_covered_true. split; [by exists ds|].
      by intros (? & [= <-] & ?).
    - split; [done|]. by intros (? & ? & _). }
  split; [apply Htrue|]. split.
  { intros newFiles. rewrite !Htrue. intros (ds & Hout & Hall).
    exists ds. split; [done|]. eapply Forall_impl; [exact Hall|].
    intros slice (f & Hf & Hym). exists f. split; [|done].
    apply elem_of_app. by left. }
  split.
  { rewrite Hvalid. intros Hok. subst run.
    erewrite run_task_valid; [|exact Hin|exact Hok].
    cbn [fst snd files trace]. split; [done|]. split; [done|].
    by rewrite !last_app. }
  split.
  { intros e. rewrite Hvalid. unfold up_to_date. fold out.
    destruct (files w !! out) as [ds|].
    - rewrite output_covered_raise. split.
      + intros (-> & pre & slice & post & ? & ? & ?).
        split; [done|]. by exists ds, pre, slice, post.
      + intros (-> & ? & pre & slice & post & [= <-] & ? & ? & ?).
        split; [done|]. by exists pre, slice, post.
    - split; [done|]. by intros (_ & ? & ? & ? & ? & ? & _). }
  split.
  { intros e. rewrite Hvalid. intros Hraise. subst run.
    erewrite run_task_raises; [|exact Hin|exact Hraise].
    cbn [fst snd files trace]. split; [done|]. split; [done|].
    intros e'. rewrite drop_app_length. intros He'.
    pose proof (check_events_quiet env config w first out) as Hq.
    rewrite Forall_forall in Hq. by destruct (Hq e' He') as (? & ? & _). }
  intros written first' Hne Hout. rewrite Hvalid. unfold up_to_date.
  fold out. rewrite Hout. unfold computed. cbn [slices].
  by apply output_covered_unlabelled.
Qed.

Lemma C8_validity_test_witness :
  (ComputeTransportSubtask.outputValid Sample.out3 [3; 3] [1; 2]
     (Sample.world
        (Some (computed Sample.transport Sample.compute3
                 [Sample.january; Sample.february] Sample.january tt
                 Sample.mask)))).1
  = Raise AttributeError
  ∧ (ComputeTransportSubtask.run_task Sample.transport Sample.env
       Sample.config Sample.compute3 [Sample.january; Sample.february]
       tt "/out/masks.nc" Sample.mask
       (Sample.world
          (Some (computed Sample.transport Sample.compute3
                   [Sample.january; Sample.february] Sample.january tt
                   Sample.mask)))).1
    = Raise AttributeError
  ∧ (ComputeTransportSubtask.outputValid Sample.out3 [3; 3] [1; 2]
       (Sample.world (Some Sample.janOnly))).1
    = Ok true.
Proof.
  destruct (C8_validity_test Sample.transport Sample.env Sample.config
              Sample.compute3 [Sample.january; Sample.february]
              Sample.january [Sample.february] tt "/out/masks.nc"
              Sample.mask
              (Sample.world
                 (Some (computed Sample.transport Sample.compute3
                          [Sample.january; Sample.february] Sample.january
                          tt Sample.mask))))
    as (_ & _ & _ & _ & Hrun & Hown); [reflexivity|].
  assert ((ComputeTransportSubtask.outputValid Sample.out3 [3; 3] [1; 2]
             (Sample.world
                (Some (computed Sample.transport Sample.compute3
                         [Sample.january; Sample.february] Sample.january
                         tt Sample.mask)))).1
          = Raise AttributeError) as Hraise.
  { apply (Hown [Sample.january; Sample.february] Sample.january);
      [discriminate|reflexivity]. }
  split; [exact Hraise|]. split; [by apply Hrun|].
  destruct (C8_validity_test Sample.transport Sample.env Sample.config
              Sample.compute3 [Sample.january; Sample.february]
              Sample.january [Sample.february] tt "/out/masks.nc"
              Sample.mask (Sample.world (Some Sample.janOnly)))
    as (Htrue & _); [reflexivity|].
  apply Htrue. exists Sample.janOnly. split; [reflexivity|].
  apply Forall_singleton. exists Sample.january.
  split; [apply list_elem_of_here|]. split; reflexivity.
Defined.

(** C10.  When [run_task] recomputes (there is an input file, the output
    is missing or not valid, the restart file is known), it succeeds
    whatever [transectsToPlot] holds, and the [transectNames] coordinate
    it writes is [transectsToPlot], in its order, restricted to the names
    that occur in the mask file.  Each kept name is resolved to the index
    of its first occurrence in the mask file, and these indices are the
    ones the transport is computed for.  Each requested transect that the
    mask file lacks is skipped with one warning. *)
Theorem C10_written_transect_names
    {Data Mesh Signs Row : Type}
    (transport : list string → Data → Mesh → Signs → list nat → Row)
    env config self (inputFiles : list (HistoryFile Data)) first rest
    dsMesh maskFileName dsTransectMask (w : World Row) restart :
  let out := ComputeTransportSubtask.outFileName_of env config
               (startYear self) (endYear self) in
  let names := maskTransectNames dsTransectMask in
  inputFiles = first :: rest →
  (ComputeTransportSubtask.outputValid out (fileYear <$> inputFiles)
     (fileMonth <$> inputFiles) w).1 = Ok false →
  restartFileName self = Some restart →
  ∃ w' dsOut transectIndices,
    ComputeTransportSubtask.run_task transport env config self inputFiles
      dsMesh maskFileName dsTransectMask w = (Ok tt, w')
    ∧ files w' !! out = Some dsOut
    ∧ transectNames dsOut = filter (λ t, t ∈ names) (transectsToPlot self)
    ∧ transectNames dsOut `sublist_of` transectsToPlot self
    ∧ Forall2 (λ t i, names !! i = Some t
                      ∧ ∀ j, (j < i)%nat → names !! j ≠ Some t)
        (transectNames dsOut) transectIndices
    ∧ slices dsOut
      = ((λ f, mkSlice None None
                 (transport
                    (ComputeTransportSubtask.choose_variables
                       (variables first)).1
                    (data f) dsMesh (transectEdgeMaskSigns dsTransectMask)
                    transectIndices)) <$> inputFiles)
    ∧ trace w'
      = trace w ++ check_events env config w first out
          ++ ((λ f, OpenDataset (fileName f)) <$> inputFiles)
          ++ [OpenDataset restart; OpenDataset maskFileName]
          ++ (not_found
                <$> filter (λ t, t ∉ names) (transectsToPlot self))
          ++ [LogInfoArray; WriteNetcdf out].
Proof.
  intros out names Hin Hinvalid Hrestart.
  unfold out in Hinvalid. rewrite outputValid_up_to_date in Hinvalid.
  eexists _, _, _. split.
  { eapply run_task_recompute; [exact Hin|exact Hinvalid|exact Hrestart]. }
  cbn [files trace]. fold out. rewrite lookup_insert_eq.
  split; [reflexivity|]. cbn [transectNames slices computed].
  split; [reflexivity|].
  split; [apply sublist_filter|].
  split; [apply indices_of_first_occurrence|].
  split; reflexivity.
Qed.

Lemma C10_written_transect_names_witness :
  ∃ w' dsOut,
    ComputeTransportSubtask.run_task Sample.transport Sample.env
      Sample.config Sample.compute3 [Sample.january; Sample.february]
      tt "/out/masks.nc" Sample.mask (Sample.world None)
    = (Ok tt, w')
    ∧ files w' !! Sample.out3 = Some dsOut
    ∧ transectNames dsOut = ["Drake Passage"; "Drake Passage"].
Proof.
  destruct (C10_written_transect_names Sample.transport Sample.env
              Sample.config Sample.compute3
              [Sample.january; Sample.february] Sample.january
              [Sample.february] tt "/out/masks.nc" Sample.mask
              (Sample.world None) "/run/restart.0003.nc")
    as (w' & dsOut & idx & Hrun & Hout & Hnames & _).
  - reflexivity.
  - vm_compute. reflexivity.
  - reflexivity.
  - exists w', dsOut. split; [exact Hrun|]. split; [exact Hout|].
    rewrite Hnames. vm_compute. reflexivity.
Defined.

(** ** Setting up the compute subtask *)

(** C9.  When the setup of the base class and its
    [check_analysis_enabled] pass, [setup_and_check] raises [IOError]
    exactly when [runStreams.readpath('restart')] reports by its
    [ValueError] that there is no restart file; when [readpath] returns
    paths, [restartFileName] becomes the first of them and the other
    attributes stay.  Nothing in it looks at config_land_ice_flux_mode: a
    [ValueError] that leaves [setup_and_check] was raised by the base
    class. *)
Theorem C9_setup_and_check_restart
    (super_setup check_analysis_enabled : result unit)
    (readpath_restart : ComputeTransportSubtask.readpath_result)
    (self : ComputeTransport) :
  let outcome := ComputeTransportSubtask.setup_and_check super_setup
                   check_analysis_enabled readpath_restart self in
  (super_setup = Ok tt → check_analysis_enabled = Ok tt →
     (outcome = Raise IOError
      ↔ readpath_restart = ComputeTransportSubtask.RaisesValueError)
     ∧ (∀ path rest,
          readpath_restart = ComputeTransportSubtask.Returns (path :: rest) →
          outcome
          = Ok (mkCompute (startYear self) (endYear self)
                  (masksSubtask self) (transectsToPlot self)
                  (subprocessCount self) (daskThreads self) (Some path)))
     ∧ (∀ self', outcome = Ok self' →
          ∃ path rest,
            readpath_restart
            = ComputeTransportSubtask.Returns (path :: rest)
            ∧ restartFileName self' = Some path))
  ∧ (outcome = Raise ValueError →
       super_setup = Raise ValueError
       ∨ check_analysis_enabled = Raise ValueError).
Proof.
  intros outcome. subst outcome. split.
  - intros -> ->. cbn [ComputeTransportSubtask.setup_and_check].
    split; [|split].
    + by destruct readpath_restart as [|[|path rest]].
    + by intros path rest ->.
    + intros self'. destruct readpath_restart as [|[|path rest]]; try done.
      intros [= <-]. by exists path, rest.
  - unfold ComputeTransportSubtask.setup_and_check.
    destruct super_setup as [[]|e1]; [|intros [= ->]; by left].
    destruct check_analysis_enabled as [[]|e2]; [|intros [= ->]; by right].
    by destruct readpath_restart as [|[|path rest]].
Qed.

Lemma C9_setup_and_check_restart_witness :
  ComputeTransportSubtask.setup_and_check (Ok tt) (Ok tt)
    ComputeTransportSubtask.RaisesValueError Sample.compute3
  = Raise IOError
  ∧ (restartFileName
       <$> (match ComputeTransportSubtask.setup_and_check (Ok tt) (Ok tt)
                    (ComputeTransportSubtask.Returns
                       ["/run/restart.0003.nc"; "/run/restart.0004.nc"])
                    Sample.compute3 with
            | Ok self' => Some self'
            | Raise _ => None
            end))
    = Some (Some "/run/restart.0003.nc").
Proof.
  destruct (C9_setup_and_check_restart (Ok tt) (Ok tt)
              ComputeTransportSubtask.RaisesValueError Sample.compute3)
    as [H1 _].
  destruct (H1 eq_refl eq_refl) as (Hio & _ & _).
  split; [by apply Hio|].
  destruct (C9_setup_and_check_restart (Ok tt) (Ok tt)
              (ComputeTransportSubtask.Returns
                 ["/run/restart.0003.nc"; "/run/restart.0004.nc"])
              Sample.compute3)
    as [H2 _].
  destruct (H2 eq_refl eq_refl) as (_ & Hfirst & _).
  by rewrite (Hfirst _ _ eq_refl).
Defined.

(** ** Combining the per-year files *)

Section CombineRun.
Context {Row : Type}.
Implicit Types (w : World Row).

Lemma open_each_spec (paths : list string) (dss : list (Dataset Row)) w :
  Forall2 (λ path ds, files w !! path = Some ds) paths dss →
  open_each paths w
  = (Ok dss, mkWorld (files w) (dirs w)
               (trace w ++ (OpenDataset <$> paths))).
Proof.
  revert dss w. induction paths as [|path paths IH]; intros dss w Hall.
  - apply Forall2_nil_inv_l in Hall as ->. cbn. unfold ret.
    rewrite app_nil_r. by destruct w.
  - apply Forall2_cons_inv_l in Hall as (ds & dss' & Hpath & Hall & ->).
    cbn [open_each]. unfold bind at 1. unfold open_dataset. rewrite Hpath.
    unfold bind at 1. rewrite (IH dss') by exact Hall.
    unfold ret. cbn [files dirs trace fmap list_fmap].
    by rewrite <- app_assoc.
Qed.

Lemma open_mfdataset_spec env (paths : list string) ds0 rest w :
  Forall2 (λ path ds, files w !! path = Some ds) paths (ds0 :: rest) →
  ∃ names,
    open_mfdataset env paths w
    = (Ok (mkDataset ((ds0 :: rest) ≫= slices) (attrs ds0) names),
       mkWorld (files w) (dirs w) (trace w ++ (OpenDataset <$> paths))).
Proof.
  intros Hall. unfold open_mfdataset.
  destruct paths as [|path paths]; [by apply Forall2_nil_inv_l in Hall|].
  unfold bind. rewrite (open_each_spec _ _ _ Hall). by eexists.
Qed.

Lemma first_item_spec (l : list Z) (y : Z) w :
  head l = Some y → CombineTransportSubtask.first_item l w = (Ok y, w).
Proof. destruct l; [done|]. by intros [= ->]. Qed.

Lemma last_item_spec (l : list Z) (y : Z) w :
  last l = Some y → CombineTransportSubtask.last_item l w = (Ok y, w).
Proof. unfold CombineTransportSubtask.last_item. by intros ->. Qed.

Lemma run_task_combined_exists env config self y0 y1 w :
  head (startYears self) = Some y0 →
  last (endYears self) = Some y1 →
  is_Some (files w !! CombineTransportSubtask.fileName_of
                        (outputDirectory_of env config) y0 y1) →
  CombineTransportSubtask.run_task env config self w = (Ok tt, w).
Proof.
  intros Hy0 Hy1 Hout.
  unfold CombineTransportSubtask.run_task, bind.
  rewrite (first_item_spec _ _ _ Hy0), (last_item_spec _ _ _ Hy1).
  unfold path_exists, gets. fold (outputDirectory_of env config).
  by rewrite bool_decide_eq_true_2.
Qed.

Lemma run_task_combines env config self y0 y1 w dss :
  head (startYears self) = Some y0 →
  last (endYears self) = Some y1 →
  let out := CombineTransportSubtask.fileName_of
               (outputDirectory_of env config) y0 y1 in
  let inFileNames :=
    (λ se : Z * Z, CombineTransportSubtask.fileName_of
                     (outputDirectory_of env config) se.1 se.2)
      <$> zip (startYears self) (endYears self) in
  files w !! out = None →
  Forall2 (λ path ds, files w !! path = Some ds) inFileNames dss →
  ∃ ds0 names, head dss = Some ds0
    ∧ CombineTransportSubtask.run_task env config self w
      = (Ok tt,
         mkWorld
           (<[out := mkDataset (dss ≫= slices) (attrs ds0) names]> (files w))
           (dirs w)
           (trace w ++ (OpenDataset <$> inFileNames) ++ [WriteNetcdf out])).
Proof.
  intros Hy0 Hy1 out inFileNames Hout Hall.
  assert (∃ ds0 rest, dss = ds0 :: rest) as (ds0 & rest & ->).
  { subst inFileNames.
    destruct (startYears self) as [|y ys]; [done|].
    destruct (endYears self) as [|z zs]; [done|].
    cbn in Hall.
    apply Forall2_cons_inv_l in Hall as (ds0 & rest & _ & _ & ->).
    by exists ds0, rest. }
  destruct (open_mfdataset_spec env _ _ _ _ Hall) as [names Hopen].
  exists ds0, names. split; [done|].
  unfold CombineTransportSubtask.run_task, bind.
  rewrite (first_item_spec _ _ _ Hy0), (last_item_spec _ _ _ Hy1).
  fold (outputDirectory_of env config). fold out.
  unfold path_exists, gets.
  rewrite bool_decide_eq_false_2 by (rewrite Hout; by intros [? ?]).
  fold inFileNames. rewrite Hopen.
  unfold write_netcdf, modify. cbn [files dirs trace].
  by rewrite <- app_assoc.
Qed.

End CombineRun.

(** C3 (amended).  With non-empty lists of years:  when the combined file
    [transport_{startYears[0]}-{endYears[-1]}.nc] exists, [run_task]
    opens nothing and writes nothing;  when it does not exist and every
    per-year file exists, [run_task] opens the per-year files in the
    order of the paired lists and writes, under the name of the combined
    file, their Time entries put one after the other in that order. *)
Theorem C3_combine_unless_present
    {Row : Type} env config self y0 y1 (w : World Row) :
  head (startYears self) = Some y0 →
  last (endYears self) = Some y1 →
  let out := CombineTransportSubtask.fileName_of
               (outputDirectory_of env config) y0 y1 in
  let inFileNames :=
    (λ se : Z * Z, CombineTransportSubtask.fileName_of
                     (outputDirectory_of env config) se.1 se.2)
      <$> zip (startYears self) (endYears self) in
  (is_Some (files w !! out) →
     CombineTransportSubtask.run_task env config self w = (Ok tt, w))
  ∧ (files w !! out = None →
     ∀ dss, Forall2 (λ path ds, files w !! path = Some ds) inFileNames dss →
       ∃ w' combined,
         CombineTransportSubtask.run_task env config self w = (Ok tt, w')
         ∧ files w' = <[out := combined]> (files w)
         ∧ slices combined = dss ≫= slices
         ∧ trace w' = trace w ++ (OpenDataset <$> inFileNames)
                        ++ [WriteNetcdf out]).
Proof.
  intros Hy0 Hy1 out inFileNames. split.
  - by apply run_task_combined_exists.
  - intros Hout dss Hall.
    destruct (run_task_combines env config self y0 y1 w dss Hy0 Hy1 Hout Hall)
      as (ds0 & names & _ & Hrun).
    eexists _, _. split; [exact Hrun|]. by repeat split.
Qed.

Lemma C3_combine_unless_present_witness :
  ∃ w' combined,
    CombineTransportSubtask.run_task Sample.env Sample.config
      SampleCombine.combine SampleCombine.bothYears = (Ok tt, w')
    ∧ files w' !! SampleCombine.out34 = Some combined
    ∧ slices combined
      = [mkSlice (Some 3) (Some 1) [7%nat]; mkSlice (Some 3) (Some 2) [8%nat];
         mkSlice (Some 4) (Some 1) [9%nat]].
Proof.
  destruct (C3_combine_unless_present Sample.env Sample.config
              SampleCombine.combine 3 4 SampleCombine.bothYears
              eq_refl eq_refl) as [_ Hwrite].
  destruct (Hwrite ltac:(vm_compute; reflexivity)
              [SampleCombine.year3; SampleCombine.year4])
    as (w' & combined & Hrun & Hfiles & Hslices & _).
  - repeat constructor.
  - exists w', combined. split; [exact Hrun|].
    split; [|exact Hslices].
    rewrite Hfiles. apply lookup_insert_eq.
Defined.

(** C3 as stated fails when a per-year file is missing: the combined file
    of years 3 to 4 does not exist and the file of year 4 does not
    either; [run_task] raises and writes nothing. *)
Lemma C3_counterexample :
  files SampleCombine.year3Only !! SampleCombine.out34 = None
  ∧ (CombineTransportSubtask.run_task Sample.env Sample.config
       SampleCombine.combine SampleCombine.year3Only).1 = Raise IOError
  ∧ files (CombineTransportSubtask.run_task Sample.env Sample.config
             SampleCombine.combine SampleCombine.year3Only).2
      !! SampleCombine.out34 = None.
Proof. vm_compute. done. Qed.

(** ** The task graph built by [TimeSeriesTransport.__init__] *)

Lemma alter_last (f : AnalysisTask → AnalysisTask) (h : Store)
    (t : AnalysisTask) (i : oid) :
  i = List.length h → alter f i (h ++ [t]) = h ++ [f t].
Proof. intros ->. apply alter_new. Qed.

Lemma add_subtasks_nil p : add_subtasks p [] = p.
Proof. unfold add_subtasks. rewrite app_nil_r. by destruct p. Qed.

Lemma add_run_after_nil c : add_run_after c [] = c.
Proof. unfold add_run_after. rewrite app_nil_r. by destruct c. Qed.

Section Loops.
Variables (env : Env) (config : Config).
Variables (T : list string) (ctl : option Config) (file : string).

Lemma year_loop (years : list Z) :
  ∀ (p m c : AnalysisTask) (rest : Store),
    Forall (λ i, i < 3 + List.length rest)%nat (subtasks p) →
    Forall (λ i, i < 3 + List.length rest)%nat (runAfterTasks c) →
    for_each years (year_body env config T) (p :: m :: c :: rest)
    = (Ok tt,
       add_subtasks p (seq (3 + List.length rest) (List.length years))
       :: m
       :: add_run_after c (seq (3 + List.length rest) (List.length years))
       :: rest ++ ((λ y, compute_task env config p y y 1%nat T) <$> years)).
Proof.
  induction years as [|y ys IH]; intros p m c rest Hp Hc.
  - cbn. unfold ret. by rewrite add_subtasks_nil, add_run_after_nil, app_nil_r.
  - cbn [for_each]. unfold bind at 1. unfold year_body at 1.
    unfold bind at 1.
    rewrite (Compute_init_spec env config (p :: m :: c :: rest) 0%nat p)
      by done.
    unfold bind at 1. unfold add_subtask at 1. unfold modify.
    cbn [app alter list_alter].
    rewrite decide_False.
    2:{ intros Hin. rewrite Forall_forall in Hp. apply Hp in Hin.
        cbn [List.length] in Hin. lia. }
    unfold bind at 1. unfold run_after at 1. unfold modify.
    cbn [alter list_alter List.length].
    rewrite (alter_last _ rest) by done.
    cbn [compute_task runAfterTasks].
    rewrite decide_True by apply list_elem_of_here.
    unfold run_after, modify. cbn [alter list_alter].
    rewrite decide_False.
    2:{ intros Hin. rewrite Forall_forall in Hc. apply Hc in Hin. lia. }
    match goal with
    | |- for_each ys _ (?p1 :: m :: ?c1 :: ?r1) = _ =>
        rewrite (IH p1 m c1 r1)
    end.
    + rewrite length_app. cbn [List.length seq fmap list_fmap].
      unfold add_subtasks, add_run_after, compute_task.
      cbn [taskName componentName tags subtaskName runAfterTasks subtasks
           fields].
      rewrite <- !app_assoc. cbn [app].
      replace (3 + (List.length rest + 1))%nat
        with (S (3 + List.length rest)) by lia.
      reflexivity.
    + cbn [subtasks]. rewrite length_app. cbn [List.length].
      apply Forall_app. split.
      * eapply Forall_impl; [exact Hp|]. cbn. lia.
      * apply Forall_singleton. cbn [List.length]. lia.
    + cbn [runAfterTasks]. rewrite length_app. cbn [List.length].
      apply Forall_app. split.
      * eapply Forall_impl; [exact Hc|]. cbn. lia.
      * apply Forall_singleton. cbn [List.length]. lia.
Qed.

Lemma plot_loop (items : list string) :
  ∀ (i : nat) (p m c : AnalysisTask) (rest : Store),
    Forall (λ i, i < 3 + List.length rest)%nat (subtasks p) →
    for_each (enumerate_from i items) (plot_body ctl file)
      (p :: m :: c :: rest)
    = (Ok tt,
       add_subtasks p (seq (3 + List.length rest) (List.length items))
       :: m :: c
       :: rest ++ (plot_node ctl file p <$> enumerate_from i items)).
Proof.
  induction items as [|t ts IH]; intros i p m c rest Hp.
  - cbn. unfold ret. by rewrite add_subtasks_nil, app_nil_r.
  - cbn [enumerate_from for_each]. unfold bind at 1. unfold plot_body at 1.
    unfold bind at 1. cbn [fst snd].
    rewrite (Plot_init_spec (p :: m :: c :: rest) 0%nat p) by done.
    unfold bind at 1. unfold run_after at 1. unfold modify.
    cbn [app alter list_alter List.length].
    rewrite (alter_last _ rest) by done.
    cbn [plot_task runAfterTasks].
    rewrite decide_False by apply not_elem_of_nil.
    unfold add_subtask, modify. cbn [alter list_alter].
    rewrite decide_False.
    2:{ intros Hin. rewrite Forall_forall in Hp. apply Hp in Hin. lia. }
    match goal with
    | |- for_each _ _ (?p1 :: m :: c :: ?r1) = _ =>
        rewrite (IH (S i) p1 m c r1)
    end.
    + rewrite length_app. cbn [List.length seq fmap list_fmap].
      unfold add_subtasks, plot_node, add_run_after, plot_task.
      cbn [taskName componentName tags subtaskName runAfterTasks subtasks
           fields fst snd].
      rewrite <- !app_assoc. cbn [app].
      replace (3 + (List.length rest + 1))%nat
        with (S (3 + List.length rest)) by lia.
      reflexivity.
    + cbn [subtasks]. rewrite length_app. cbn [List.length].
      apply Forall_app. split.
      * eapply Forall_impl; [exact Hp|]. cbn. lia.
      * apply Forall_singleton. lia.
Qed.

End Loops.

Section Construction.
Variables (env : Env) (config : Config) (ctl : option Config).

Lemma init_spec :
  TimeSeriesTransport.__init__ env config ctl []
  = (Ok 0%nat, built env config ctl).
Proof.
  unfold TimeSeriesTransport.__init__.
  fold (years_of config). fold (transect_file env config).
  fold (transects_of env config).
  unfold bind at 1. cbn [AnalysisTask_.__init__ new app List.length].
  unfold bind at 1. unfold ComputeTransectMasksSubtask.__init__.
  unfold bind at 1. unfold read at 1. cbn [lookup list_lookup].
  unfold bind at 1. cbn [AnalysisTask_.__init__ new app List.length].
  unfold bind at 1. unfold set_fields at 1. unfold modify.
  cbn [alter list_alter taskName componentName tags subtaskName
       runAfterTasks subtasks fields].
  unfold ret at 1.
  unfold bind at 1. unfold add_subtask at 1. unfold modify.
  cbn [alter list_alter subtasks].
  rewrite decide_False by apply not_elem_of_nil.
  cbn [taskName componentName tags subtaskName runAfterTasks subtasks
       fields app].
  unfold bind at 1. unfold CombineTransportSubtask.__init__.
  unfold bind at 1. unfold read at 1. cbn [lookup list_lookup].
  unfold bind at 1. cbn [AnalysisTask_.__init__ new app List.length].
  unfold bind at 1. unfold set_fields at 1. unfold modify.
  cbn [alter list_alter taskName componentName tags subtaskName
       runAfterTasks subtasks fields].
  unfold ret at 1.
  unfold bind at 1.
  rewrite (year_loop env config (transects_of env config) (years_of config)
             _ _ _ []).
  2:{ cbn [subtasks List.length]. apply Forall_singleton. lia. }
  2:{ cbn [runAfterTasks]. constructor. }
  unfold bind at 1.
  rewrite (plot_loop ctl (transect_file env config)
             (transects_of env config) 0%nat).
  2:{ cbn [add_subtasks subtasks List.length]. rewrite length_app, length_fmap.
      cbn [List.length]. apply Forall_app. split.
      - apply Forall_singleton. lia.
      - apply Forall_seq. intros j Hj. lia. }
  unfold ret. unfold built, compute_nodes, plot_nodes, compute_ids, plot_ids,
    combine_node, masks_node, add_subtasks, add_run_after, enumerate, root.
  cbn [taskName componentName tags subtaskName runAfterTasks subtasks
       fields app List.length].
  rewrite length_fmap. reflexivity.
Qed.

End Construction.

Lemma range_length (a b : Z) : List.length (range a b) = Z.to_nat (b - a).
Proof. unfold range. by rewrite length_fmap, length_seq. Qed.

Lemma enumerate_from_lookup {A : Type} (l : list A) (i j : nat) (x : A) :
  l !! j = Some x → enumerate_from i l !! j = Some ((i + j)%nat, x).
Proof.
  revert i j. induction l as [|y l IH]; intros i j; [done|].
  destruct j as [|j]; cbn.
  - intros [= ->]. do 2 f_equal. lia.
  - intros Hj. etransitivity; [exact (IH (S i) j Hj)|]. do 2 f_equal. lia.
Qed.

Lemma enumerate_from_length {A : Type} (l : list A) (i : nat) :
  List.length (enumerate_from i l) = List.length l.
Proof. revert i. induction l; intros i; cbn; [done|]. by rewrite IHl. Qed.

Lemma enumerate_from_lookup_inv {A : Type} (l : list A) (i j : nat)
    (it : nat * A) :
  enumerate_from i l !! j = Some it →
  it.1 = (i + j)%nat ∧ l !! j = Some it.2.
Proof.
  revert i j. induction l as [|y l IH]; intros i j; [done|].
  destruct j as [|j]; cbn.
  - intros [= <-]. cbn. split; [lia|done].
  - intros Hj. destruct (IH (S i) j Hj) as [Hi Hl]. split; [lia|exact Hl].
Qed.

Lemma lookup_seq_middle {A : Type} (pre l post : list A) :
  (λ i, (pre ++ l ++ post) !! i) <$> seq (List.length pre) (List.length l)
  = Some <$> l.
Proof.
  revert pre. induction l as [|x l IH]; intros pre; [done|].
  cbn [List.length seq fmap list_fmap app]. f_equal.
  - by rewrite list_lookup_middle.
  - specialize (IH (pre ++ [x])).
    rewrite length_app, <- app_assoc in IH. cbn [List.length app] in IH.
    by replace (List.length pre + 1)%nat with (S (List.length pre)) in IH
      by lia.
Qed.

Lemma descending_is_acyclic (h : Store) :
  (∀ a b, runs_after h a b → (stage h b < stage h a)%nat) →
  ∀ a, ¬ tc (runs_after h) a a.
Proof.
  intros Hdesc.
  assert (∀ a b, tc (runs_after h) a b → (stage h b < stage h a)%nat) as Htc.
  { induction 1 as [a b Hab|a b c Hab _ IH].
    - by apply Hdesc.
    - apply Hdesc in Hab. lia. }
  intros a Haa. apply Htc in Haa. lia.
Qed.

Section GraphFacts.
Variables (env : Env) (config : Config) (ctl : option Config).

Local Abbreviation built := (built env config ctl).
Local Abbreviation years := (years_of config).
Local Abbreviation T := (transects_of env config).
Local Abbreviation n := (List.length (years_of config)).

Lemma built_split :
  built
  = [add_subtasks root (1%nat :: compute_ids config
                                 ++ plot_ids env config);
     masks_node env config; combine_node config]
    ++ compute_nodes env config ++ plot_nodes env config ctl.
Proof. reflexivity. Qed.

Lemma compute_nodes_length : List.length (compute_nodes env config) = n.
Proof. unfold compute_nodes. by rewrite length_fmap. Qed.

Lemma plot_nodes_length :
  List.length (plot_nodes env config ctl) = List.length T.
Proof.
  unfold plot_nodes, enumerate.
  by rewrite length_fmap, enumerate_from_length.
Qed.

Lemma built_compute (k : nat) (y : Z) :
  years !! k = Some y →
  built !! (3 + k)%nat
  = Some (compute_task env config root y y 1%nat T).
Proof.
  intros Hk. rewrite built_split.
  rewrite lookup_app_r by (cbn [List.length]; lia).
  cbn [List.length]. replace (3 + k - 3)%nat with k by lia.
  apply lookup_app_l_Some. unfold compute_nodes.
  by rewrite list_lookup_fmap, Hk.
Qed.

Lemma built_plot (j : nat) (t : string) :
  T !! j = Some t →
  built !! (3 + n + j)%nat
  = Some (plot_node ctl (transect_file env config) root (j, t)).
Proof.
  intros Hj. rewrite built_split.
  rewrite lookup_app_r by (cbn [List.length]; lia).
  rewrite lookup_app_r by (rewrite compute_nodes_length; cbn; lia).
  rewrite compute_nodes_length. cbn [List.length].
  replace (3 + n + j - 3 - n)%nat with j by lia.
  unfold plot_nodes, enumerate.
  by rewrite list_lookup_fmap, (enumerate_from_lookup _ 0 j t Hj).
Qed.

(** Every object of the store is one of the five kinds of node. *)
Lemma built_lookup (i : oid) (t : AnalysisTask) :
  built !! i = Some t →
  (i = 0%nat ∧ t = add_subtasks root (1%nat :: compute_ids config
                                        ++ plot_ids env config))
  ∨ (i = 1%nat ∧ t = masks_node env config)
  ∨ (i = 2%nat ∧ t = combine_node config)
  ∨ (∃ k y, i = (3 + k)%nat ∧ years !! k = Some y
            ∧ t = compute_task env config root y y 1%nat T)
  ∨ (∃ j tr, i = (3 + n + j)%nat ∧ T !! j = Some tr
             ∧ t = plot_node ctl (transect_file env config) root (j, tr)).
Proof.
  intros Hi.
  destruct i as [|[|[|i]]].
  - left. split; [done|]. by injection Hi as <-.
  - right; left. split; [done|]. by injection Hi as <-.
  - right; right; left. split; [done|]. by injection Hi as <-.
  - right; right; right.
    change (built !! S (S (S i)))
      with ((compute_nodes env config ++ plot_nodes env config ctl) !! i)
      in Hi.
    apply lookup_app_Some in Hi as [Hi|[Hge Hi]].
    + left. unfold compute_nodes in Hi.
      apply list_lookup_fmap_Some in Hi as (y & -> & Hy).
      by exists i, y.
    + right. rewrite compute_nodes_length in Hge, Hi.
      unfold plot_nodes, enumerate in Hi.
      apply list_lookup_fmap_Some in Hi as ([j tr] & -> & Hit).
      apply enumerate_from_lookup_inv in Hit as [Hj Htr]. cbn in Hj, Htr.
      exists (i - n)%nat, tr. split; [lia|]. split; [done|].
      by rewrite Hj.
Qed.

Lemma built_descending (a b : oid) :
  runs_after built a b → (stage built b < stage built a)%nat.
Proof.
  intros (t & Ha & Hb).
  destruct (built_lookup a t Ha)
    as [[-> ->]|[[-> ->]|[[-> ->]|[(k & y & -> & Hk & ->)
                                  |(j & tr & -> & Hj & ->)]]]].
  - by apply elem_of_nil in Hb.
  - by apply elem_of_nil in Hb.
  - cbn [combine_node runAfterTasks] in Hb. unfold compute_ids in Hb.
    apply elem_of_seq in Hb as [Hlo Hhi].
    destruct (lookup_lt_is_Some_2 years (b - 3)%nat) as [y Hy]; [lia|].
    assert (stage built b = 1%nat) as ->.
    { replace b with (3 + (b - 3))%nat by lia.
      unfold stage. by rewrite (built_compute _ _ Hy). }
    cbn. lia.
  - cbn [compute_task runAfterTasks] in Hb.
    apply list_elem_of_singleton in Hb as ->.
    unfold stage. rewrite (built_compute _ _ Hk). cbn. lia.
  - cbn in Hb. apply list_elem_of_singleton in Hb as ->.
    unfold stage. rewrite (built_plot _ _ Hj). cbn. lia.
Qed.

End GraphFacts.

(** C2.  For every configuration with startYear <= endYear, the
    constructor leaves run-after constraints without a cycle, in which
    every per-year compute subtask runs after the masks subtask, the one
    combine subtask runs after every compute subtask, and every plot
    subtask runs after the combine subtask. *)
Theorem C2_run_after_graph env config ctl :
  getint config "timeSeries" "startYear"
    ≤ getint config "timeSeries" "endYear" →
  ∃ (h : Store) (masks combine : oid),
    TimeSeriesTransport.__init__ env config ctl [] = (Ok 0%nat, h)
    ∧ (∀ a, ¬ tc (runs_after h) a a)
    ∧ (∃ t m, h !! masks = Some t ∧ fields t = Masks m)
    ∧ (∃ t c, h !! combine = Some t ∧ fields t = Combine c)
    ∧ (∀ i t c, h !! i = Some t → fields t = Combine c → i = combine)
    ∧ (∃ i t c, h !! i = Some t ∧ fields t = Compute c)
    ∧ (∀ i t c, h !! i = Some t → fields t = Compute c →
         runs_after h i masks ∧ runs_after h combine i)
    ∧ (∀ i t p, h !! i = Some t → fields t = Plot p →
         runs_after h i combine).
Proof.
  intros Hle.
  exists (built env config ctl), 1%nat, 2%nat.
  split; [apply init_spec|].
  split; [apply descending_is_acyclic, built_descending|].
  split; [by eexists _, _|].
  split; [by eexists _, _|].
  split.
  { intros i t c Hi Hc.
    destruct (built_lookup env config ctl i t Hi)
      as [[-> ->]|[[-> ->]|[[-> ->]|[(k & y & -> & Hk & ->)
                                    |(j & tr & -> & Hj & ->)]]]];
      done. }
  split.
  { destruct (lookup_lt_is_Some_2 (years_of config) 0%nat) as [y Hy].
    { unfold years_of. rewrite range_length. lia. }
    eexists (3 + 0)%nat, _, _. split; [by apply built_compute|done]. }
  split.
  - intros i t c Hi Hc.
    destruct (built_lookup env config ctl i t Hi)
      as [[-> ->]|[[-> ->]|[[-> ->]|[(k & y & -> & Hk & ->)
                                    |(j & tr & -> & Hj & ->)]]]];
      try done.
    split.
    + eexists. split; [exact Hi|]. apply list_elem_of_here.
    + eexists. split; [reflexivity|].
      cbn [combine_node runAfterTasks]. unfold compute_ids.
      apply elem_of_seq. apply lookup_lt_Some in Hk. lia.
  - intros i t p Hi Hp.
    destruct (built_lookup env config ctl i t Hi)
      as [[-> ->]|[[-> ->]|[[-> ->]|[(k & y & -> & Hk & ->)
                                    |(j & tr & -> & Hj & ->)]]]];
      try done.
    eexists. split; [exact Hi|]. apply list_elem_of_here.
Qed.

Lemma C2_run_after_graph_witness :
  ∃ (h : Store) (masks combine : oid),
    TimeSeriesTransport.__init__ Sample.env Sample.config None []
      = (Ok 0%nat, h)
    ∧ (∀ a, ¬ tc (runs_after h) a a)
    ∧ (∃ t m, h !! masks = Some t ∧ fields t = Masks m)
    ∧ (∃ t c, h !! combine = Some t ∧ fields t = Combine c)
    ∧ (∀ i t c, h !! i = Some t → fields t = Combine c → i = combine)
    ∧ (∃ i t c, h !! i = Some t ∧ fields t = Compute c)
    ∧ (∀ i t c, h !! i = Some t → fields t = Compute c →
         runs_after h i masks ∧ runs_after h combine i)
    ∧ (∀ i t p, h !! i = Some t → fields t = Plot p →
         runs_after h i combine).
Proof.
  apply (C2_run_after_graph Sample.env Sample.config None).
  vm_compute. discriminate.
Defined.

(** C4.  What the constructor builds.  For every configuration with
    startYear <= endYear and transect list [T] (the features of the
    transect file when [T] asks for "all"), the subtasks that the
    constructor adds to the task are, in this order and without
    repetition: one transect-masks subtask; endYear - startYear + 1
    compute subtasks, the k-th for the single year startYear + k; and one
    plot subtask for each element of [T], with its index.  The
    constructor also builds exactly one combine subtask, whose
    [startYears] and [endYears] are both the list of those years; but it
    never calls [add_subtask] for it, as it does for every other subtask
    it builds, so that the combine subtask is not among the subtasks of
    the task. *)
Theorem C4_subtasks_built env config ctl :
  let sy := getint config "timeSeries" "startYear" in
  let ey := getint config "timeSeries" "endYear" in
  let T := transects_of env config in
  let file := get_region_mask env config "transportTransects.geojson" in
  let years := (λ k : nat, sy + Z.of_nat k)
                 <$> seq 0 (Z.to_nat (ey - sy + 1)) in
  sy ≤ ey →
  ∃ (h : Store) (task : AnalysisTask) (combine : oid),
    TimeSeriesTransport.__init__ env config ctl [] = (Ok 0%nat, h)
    ∧ h !! 0%nat = Some task
    ∧ Z.of_nat (List.length years) = ey - sy + 1
    ∧ fields_of h (subtasks task)
      = Some (Masks (mkMasks file "transportMasks"))
        :: ((λ y, Some (Compute
                          (mkCompute y y 1%nat T
                             (Z.min (getint config "execute" "parallelTaskCount")
                                (getint config "timeSeriesTransport"
                                   "subprocessCount"))
                             (Z.min (cpu_count env)
                                (getint config "timeSeriesTransport"
                                   "daskThreads"))
                             None))) <$> years)
        ++ ((λ it : nat * string,
               Some (Plot (mkPlot file it.2 it.1 ctl None)))
              <$> enumerate T)
    ∧ NoDup (subtasks task)
    ∧ (fields <$> h !! combine) = Some (Combine (mkCombine years years))
    ∧ (∀ i t c, h !! i = Some t → fields t = Combine c → i = combine)
    ∧ combine ∉ subtasks task.
Proof.
  intros sy ey T file years Hle.
  eexists (built env config ctl), _, 2%nat.
  split; [apply init_spec|].
  split; [reflexivity|].
  split; [subst years; rewrite length_fmap, length_seq; lia|].
  cbn [add_subtasks subtasks root app].
  assert (years = years_of config) as Hyears.
  { subst years. unfold years_of, range. fold sy ey.
    by replace (ey + 1 - sy) with (ey - sy + 1) by lia. }
  split.
  { unfold fields_of. cbn [fmap list_fmap]. f_equal. rewrite fmap_app.
    rewrite Hyears. f_equal.
    - unfold compute_ids.
      rewrite <- (compute_nodes_length env config).
      pose proof (lookup_seq_middle
                    [add_subtasks root (1%nat :: compute_ids config
                                          ++ plot_ids env config);
                     masks_node env config; combine_node config]
                    (compute_nodes env config)
                    (plot_nodes env config ctl)) as Hmid.
      rewrite <- built_split in Hmid. cbn [List.length] in Hmid.
      apply (f_equal (fmap (fmap fields))) in Hmid.
      rewrite <- !list_fmap_compose in Hmid.
      etransitivity; [exact Hmid|].
      unfold compute_nodes. rewrite <- !list_fmap_compose.
      by apply list_fmap_ext.
    - unfold plot_ids.
      rewrite <- (compute_nodes_length env config).
      rewrite <- (plot_nodes_length env config ctl).
      pose proof (lookup_seq_middle
                    ([add_subtasks root (1%nat :: compute_ids config
                                           ++ plot_ids env config);
                      masks_node env config; combine_node config]
                       ++ compute_nodes env config)
                    (plot_nodes env config ctl) []) as Hmid.
      rewrite app_nil_r, <- app_assoc, <- built_split in Hmid.
      rewrite length_app in Hmid. cbn [List.length] in Hmid.
      apply (f_equal (fmap (fmap fields))) in Hmid.
      rewrite <- !list_fmap_compose in Hmid.
      etransitivity; [exact Hmid|].
      unfold plot_nodes. rewrite <- !list_fmap_compose.
      by apply list_fmap_ext. }
  split.
  { apply NoDup_cons. split.
    - unfold compute_ids, plot_ids.
      intros [Hin|Hin]%elem_of_app; apply elem_of_seq in Hin; lia.
    - apply NoDup_app. split; [apply NoDup_seq|].
      split; [|apply NoDup_seq].
      unfold compute_ids, plot_ids. intros i Hi Hi'.
      apply elem_of_seq in Hi, Hi'. lia. }
  split; [by rewrite Hyears|].
  split.
  { intros i t c Hi Hc.
    destruct (built_lookup env config ctl i t Hi)
      as [[-> ->]|[[-> ->]|[[-> ->]|[(k & y & -> & Hk & ->)
                                    |(j & tr & -> & Hj & ->)]]]];
      done. }
  unfold compute_ids, plot_ids.
  intros [Heq|[Hin|Hin]%elem_of_app]%elem_of_cons;
    [lia|apply elem_of_seq in Hin; lia|apply elem_of_seq in Hin; lia].
Qed.

Lemma C4_subtasks_built_witness :
  ∃ (h : Store) (task : AnalysisTask),
    TimeSeriesTransport.__init__ Sample.env Sample.config None []
      = (Ok 0%nat, h)
    ∧ h !! 0%nat = Some task
    ∧ fields_of h (subtasks task)
      = [Some (Masks (mkMasks "/masks/transportTransects.geojson"
                        "transportMasks"));
         Some (Compute (mkCompute 3 3 1%nat ["Drake Passage"; "Africa-Ant"]
                          4 6 None));
         Some (Compute (mkCompute 4 4 1%nat ["Drake Passage"; "Africa-Ant"]
                          4 6 None));
         Some (Plot (mkPlot "/masks/transportTransects.geojson"
                       "Drake Passage" 0 None None));
         Some (Plot (mkPlot "/masks/transportTransects.geojson"
                       "Africa-Ant" 1 None None))]
    ∧ (fields <$> h !! 2%nat) = Some (Combine (mkCombine [3; 4] [3; 4])).
Proof.
  destruct (C4_subtasks_built Sample.env Sample.config None)
    as (h & task & combine & Hrun & Htask & _ & Hsub & _ & Hcomb & Huniq & _).
  - vm_compute. discriminate.
  - exists h, task. split; [exact Hrun|]. split; [exact Htask|].
    split; [exact Hsub|].
    destruct (h !! 2%nat) as [t|] eqn:H2.
    + pose proof (init_spec Sample.env Sample.config None) as Hb.
      rewrite Hrun in Hb. injection Hb as ->.
      injection H2 as <-. by vm_compute.
    + pose proof (init_spec Sample.env Sample.config None) as Hb.
      rewrite Hrun in Hb. injection Hb as ->.
      vm_compute in H2. discriminate H2.
Defined.

(** The constructor for years 3 to 4 and two transects: among the
    subtasks it adds there are the masks subtask, two compute subtasks
    and two plot subtasks, and no combine subtask. *)
Lemma C4_counterexample :
  ∃ (h : Store) (task : AnalysisTask),
    TimeSeriesTransport.__init__ Sample.env Sample.config None []
      = (Ok 0%nat, h)
    ∧ h !! 0%nat = Some task
    ∧ List.length (subtasks task) = 5%nat
    ∧ Forall (λ f, ∀ c, f ≠ Some (Combine c)) (fields_of h (subtasks task)).
Proof.
  eexists _, _. split; [vm_compute; reflexivity|].
  split; [reflexivity|]. split; [reflexivity|].
  vm_compute. repeat constructor; discriminate.
Qed.

Lemma C6_subprocessCount_daskThreads_minima_witness :
  ∃ h' task c,
    ComputeTransportSubtask.__init__ Sample.env Sample.config 0%nat 3 3
      1%nat ["Drake Passage"] [Sample.parent]
      = (Ok 1%nat, h')
    ∧ h' !! 1%nat = Some task
    ∧ fields task = Compute c
    ∧ subprocessCount c = Z.min 4 8
    ∧ daskThreads c = Z.min 6 12
    ∧ subprocessCount c ≤ 4
    ∧ daskThreads c ≤ 6.
Proof.
  apply (C6_subprocessCount_daskThreads_minima Sample.env Sample.config
           [Sample.parent] 0%nat Sample.parent 3 3 1%nat ["Drake Passage"]).
  reflexivity.
Defined.


(** ** Further properties of the subtasks *)

(** *** Rendered years and the names built from them *)

Lemma pretty_N_char_digit (x : N) : is_digit (pretty_N_char x) = true.
Proof. unfold pretty_N_char. by repeat case_match. Qed.

Lemma pretty_N_go_digits (x : N) :
  ∀ s, all_digits s = true → all_digits (pretty_N_go x s) = true.
Proof.
  induction (N.lt_wf_0 x) as [x _ IH]. intros s Hs.
  destruct (decide (x = 0)%N) as [->|Hx]; [by rewrite pretty_N_go_0|].
  rewrite pretty_N_go_step by lia. apply IH.
  - apply N.div_lt; lia.
  - cbn. by rewrite pretty_N_char_digit.
Qed.

Lemma pretty_N_digits (x : N) : all_digits (pretty x) = true.
Proof.
  unfold pretty, pretty_N. case_decide; [done|]. by apply pretty_N_go_digits.
Qed.

Lemma pretty_N_go_head (x : N) :
  (0 < x)%N → ∀ s, ∃ c r, pretty_N_go x s = String c r ∧ c ≠ "0"%char.
Proof.
  induction (N.lt_wf_0 x) as [x _ IH]. intros Hx s.
  rewrite pretty_N_go_step by done.
  destruct (decide (x `div` 10 = 0)%N) as [H0|H0].
  - rewrite H0, pretty_N_go_0. eexists _, _. split; [done|].
    assert (x < 10)%N by (apply N.div_small_iff in H0; [done|lia]).
    rewrite N.mod_small by done.
    assert (x = 1 ∨ x = 2 ∨ x = 3 ∨ x = 4 ∨ x = 5 ∨ x = 6 ∨ x = 7 ∨ x = 8
            ∨ x = 9)%N as Hc by lia.
    destruct Hc as [->|[->|[->|[->|[->|[->|[->|[->| ->]]]]]]]]; done.
  - apply IH; [apply N.div_lt; lia|by apply N.neq_0_lt_0].
Qed.

Lemma pretty_N_head (x : N) :
  ∃ c r, pretty x = String c r ∧ (c = "0"%char → x = 0%N).
Proof.
  unfold pretty, pretty_N. case_decide as Hx.
  - by eexists _, _.
  - destruct (pretty_N_go_head x ltac:(lia) "") as (c & r & -> & Hc).
    by eexists _, _.
Qed.

Lemma append_length (u v : string) :
  String.length (u +:+ v) = (String.length u + String.length v)%nat.
Proof.
  induction u as [|c u IH]; [done|].
  change (S (String.length (u +:+ v))
          = S (String.length u + String.length v)).
  by rewrite IH.
Qed.

Lemma append_inv_length (u u' v v' : string) :
  String.length u = String.length u' →
  u +:+ v = u' +:+ v' → u = u' ∧ v = v'.
Proof.
  revert u'. induction u as [|c u IH]; intros [|c' u']; try done.
  cbn. intros [= Hlen] [= -> Heq]. destruct (IH _ Hlen Heq) as [-> ->]. done.
Qed.

Lemma append_inv_tail (u u' v : string) : u +:+ v = u' +:+ v → u = u'.
Proof.
  intros Heq. apply (append_inv_length u u' v v); [|done].
  apply (f_equal String.length) in Heq. rewrite !append_length in Heq. lia.
Qed.

Lemma zeros_digits (k : nat) : all_digits (Str.zeros k) = true.
Proof. induction k; [done|]. cbn. done. Qed.

Lemma all_digits_app (u v : string) :
  all_digits (u +:+ v) = all_digits u && all_digits v.
Proof.
  induction u as [|c u IH]; [done|].
  change (is_digit c && all_digits (u +:+ v)
          = is_digit c && all_digits u && all_digits v).
  by rewrite IH, andb_assoc.
Qed.

Lemma all_digits_no_dash (s : string) :
  all_digits s = true → Str.occurs "-" s = false.
Proof.
  induction s as [|c r IH]; [done|]. cbn.
  intros [Hc Hr]%andb_true_iff. rewrite (IH Hr), orb_false_r.
  apply Ascii.eqb_neq. intros ->. done.
Qed.

(** Zero padding in front of two rendered numbers hides no difference. *)
Lemma zeros_pretty_inj (a b : nat) (x y : N) :
  Str.zeros a +:+ pretty x = Str.zeros b +:+ pretty y → x = y.
Proof.
  assert (∀ k (x y : N), pretty x = Str.zeros (S k) +:+ pretty y → False)
    as Hno.
  { intros k x' y' Heq.
    change (Str.zeros (S k) +:+ pretty y')
      with (String "0" (Str.zeros k +:+ pretty y')) in Heq.
    destruct (pretty_N_head x') as (c & r & Hx & H0).
    destruct (pretty_N_head y') as (c' & r' & Hy & _).
    rewrite Hx in Heq. injection Heq as -> Hr.
    rewrite (H0 eq_refl) in Hx.
    change (pretty 0%N) with "0" in Hx. injection Hx as <-.
    rewrite Hy in Hr. by destruct k. }
  revert b. induction a as [|a IH]; intros [|b].
  - apply (inj pretty).
  - intros Heq. by destruct (Hno _ _ _ Heq).
  - intros Heq. symmetry in Heq. by destruct (Hno _ _ _ Heq).
  - change (Str.zeros (S a) +:+ pretty x)
      with (String "0" (Str.zeros a +:+ pretty x)).
    change (Str.zeros (S b) +:+ pretty y)
      with (String "0" (Str.zeros b +:+ pretty y)).
    intros [= Heq]. by apply (IH b).
Qed.

Lemma fmt04d_inj (n m : Z) : Str.fmt04d n = Str.fmt04d m → n = m.
Proof.
  unfold Str.fmt04d, Str.zfill.
  destruct (Z.ltb_spec n 0) as [Hn|Hn], (Z.ltb_spec m 0) as [Hm|Hm].
  - cbn. intros [= Heq]. apply zeros_pretty_inj in Heq. lia.
  - intros Heq. exfalso.
    destruct (Str.zeros (4 - String.length (pretty (Z.abs_N m)))) as [|c r] eqn:Hz.
    + destruct (pretty_N_head (Z.abs_N m)) as (c & r & Hp & _).
      pose proof (pretty_N_digits (Z.abs_N m)) as Hd.
      rewrite Hp in Heq, Hd. cbn in Heq. injection Heq as <- _. done.
    + pose proof (zeros_digits (4 - String.length (pretty (Z.abs_N m)))) as Hd.
      rewrite Hz in Hd. cbn in Heq. injection Heq as <- _. done.
  - intros Heq. exfalso. symmetry in Heq.
    destruct (Str.zeros (4 - String.length (pretty (Z.abs_N n)))) as [|c r] eqn:Hz.
    + destruct (pretty_N_head (Z.abs_N n)) as (c & r & Hp & _).
      pose proof (pretty_N_digits (Z.abs_N n)) as Hd.
      rewrite Hp in Heq, Hd. cbn in Heq. injection Heq as <- _. done.
    + pose proof (zeros_digits (4 - String.length (pretty (Z.abs_N n)))) as Hd.
      rewrite Hz in Hd. cbn in Heq. injection Heq as <- _. done.
  - intros Heq. apply zeros_pretty_inj in Heq. lia.
Qed.

Lemma zeros_length (k : nat) : String.length (Str.zeros k) = k.
Proof.
  induction k as [|k IH]; [done|].
  change (S (String.length (Str.zeros k)) = S k). by rewrite IH.
Qed.

Lemma zfill_length (w : nat) (s : string) :
  (w ≤ String.length (Str.zfill w s))%nat.
Proof. unfold Str.zfill. rewrite append_length, zeros_length. lia. Qed.

Lemma zfill_digits (w : nat) (s : string) :
  all_digits s = true → all_digits (Str.zfill w s) = true.
Proof.
  intros Hs. unfold Str.zfill. by rewrite all_digits_app, zeros_digits, Hs.
Qed.

(** After its first character a rendered year holds digits only. *)
Lemma fmt04d_shape (n : Z) :
  ∃ c r, Str.fmt04d n = String c r ∧ all_digits r = true.
Proof.
  unfold Str.fmt04d.
  pose proof (pretty_N_digits (Z.abs_N n)) as Hd.
  destruct (Z.ltb_spec n 0) as [Hn|Hn].
  - eexists _, _. split; [reflexivity|]. by apply zfill_digits.
  - pose proof (zfill_length 4 (pretty (Z.abs_N n))) as Hlen.
    pose proof (zfill_digits 4 _ Hd) as Hall.
    destruct (Str.zfill 4 (pretty (Z.abs_N n))) as [|c r]; [cbn in Hlen; lia|].
    eexists _, _. split; [reflexivity|].
    change (is_digit c && all_digits r = true) in Hall.
    by apply andb_true_iff in Hall as [_ ?].
Qed.

Lemma fmt04d_length (n : Z) : (4 ≤ String.length (Str.fmt04d n))%nat.
Proof.
  unfold Str.fmt04d. destruct (Z.ltb_spec n 0) as [Hn|Hn].
  - change (4 ≤ S (String.length (Str.zfill 3 (pretty (Z.abs_N n)))))%nat.
    pose proof (zfill_length 3 (pretty (Z.abs_N n))). lia.
  - apply zfill_length.
Qed.

(** A dash can only end a run of digits in one place. *)
Lemma digits_dash_split (r r' v v' : string) :
  all_digits r = true → all_digits r' = true →
  r +:+ String "-" v = r' +:+ String "-" v' → r = r' ∧ v = v'.
Proof.
  revert r'. induction r as [|c r IH]; intros [|c' r'] Hr Hr'.
  - by intros [= ->].
  - intros [= <- _]. done.
  - intros [= -> _]. done.
  - change (is_digit c && all_digits r = true) in Hr.
    change (is_digit c' && all_digits r' = true) in Hr'.
    apply andb_true_iff in Hr as [_ Hr]. apply andb_true_iff in Hr' as [_ Hr'].
    intros [= -> Heq]. destruct (IH _ Hr Hr' Heq) as [-> ->]. done.
Qed.

(** The two years can be read back from [<start>-<end>]. *)
Lemma years_inj (a b a' b' : Z) (tail : string) :
  Str.fmt04d a +:+ "-" +:+ Str.fmt04d b +:+ tail
  = Str.fmt04d a' +:+ "-" +:+ Str.fmt04d b' +:+ tail →
  a = a' ∧ b = b'.
Proof.
  intros Heq.
  destruct (fmt04d_shape a) as (c & r & Ha & Hr).
  destruct (fmt04d_shape a') as (c' & r' & Ha' & Hr').
  assert (Str.fmt04d a = Str.fmt04d a'
          ∧ Str.fmt04d b +:+ tail = Str.fmt04d b' +:+ tail) as [Hfa Hfb].
  { rewrite Ha, Ha' in Heq |- *.
    change (String c (r +:+ String "-" (Str.fmt04d b +:+ tail))
            = String c' (r' +:+ String "-" (Str.fmt04d b' +:+ tail))) in Heq.
    injection Heq as -> Heq.
    by destruct (digits_dash_split _ _ _ _ Hr Hr' Heq) as [-> ->]. }
  split; [by apply fmt04d_inj|].
  apply fmt04d_inj. by eapply append_inv_tail.
Qed.

Lemma years_split (a a' : Z) (v v' : string) :
  Str.fmt04d a +:+ "-" +:+ v = Str.fmt04d a' +:+ "-" +:+ v' →
  a = a' ∧ v = v'.
Proof.
  intros Heq.
  destruct (fmt04d_shape a) as (c & r & Ha & Hr).
  destruct (fmt04d_shape a') as (c' & r' & Ha' & Hr').
  assert (Str.fmt04d a = Str.fmt04d a' ∧ v = v') as [Hfa Hv].
  { rewrite Ha, Ha' in Heq |- *.
    change (String c (r +:+ String "-" v) = String c' (r' +:+ String "-" v'))
      in Heq.
    injection Heq as -> Heq.
    by destruct (digits_dash_split _ _ _ _ Hr Hr' Heq) as [-> ->]. }
  split; [by apply fmt04d_inj|done].
Qed.

Lemma replace_inj (old new : Ascii.ascii) (s1 s2 : string) :
  Str.occurs new s1 = false → Str.occurs new s2 = false →
  Str.replace old new s1 = Str.replace old new s2 → s1 = s2.
Proof.
  revert s2. induction s1 as [|c r IH]; intros [|c' r']; try done.
  cbn [Str.occurs Str.replace].
  intros [Hc Hr]%orb_false_iff [Hc' Hr']%orb_false_iff [= Hh Ht].
  apply Ascii.eqb_neq in Hc, Hc'.
  rewrite (IH _ Hr Hr' Ht). f_equal.
  destruct (Ascii.eqb_spec c old) as [->|Hco],
           (Ascii.eqb_spec c' old) as [->|Hco']; congruence.
Qed.

Lemma replace_back (old new : Ascii.ascii) (s : string) :
  Str.occurs new s = false →
  Str.replace new old (Str.replace old new s) = s.
Proof.
  induction s as [|c r IH]; [done|]. cbn [Str.occurs Str.replace].
  intros [Hc Hr]%orb_false_iff. rewrite (IH Hr). f_equal.
  apply Ascii.eqb_neq in Hc.
  destruct (Ascii.eqb_spec c old) as [->|Hco].
  - by rewrite Ascii.eqb_refl.
  - by rewrite (proj2 (Ascii.eqb_neq c new)).
Qed.

Lemma replace_id (old new : Ascii.ascii) (s : string) :
  Str.occurs old s = false → Str.replace old new s = s.
Proof.
  induction s as [|c r IH]; [done|]. cbn [Str.occurs Str.replace].
  intros [Hc Hr]%orb_false_iff. by rewrite (IH Hr), Hc.
Qed.

(** *** The outcomes of the runs *)

Section ComputeOutcomes.
Context {Data Mesh Signs Row : Type}.
Variable transport : list string → Data → Mesh → Signs → list nat → Row.
Implicit Types (inputFiles : list (HistoryFile Data)) (w : World Row).



End ComputeOutcomes.

Section CombineOutcomes.
Context {Row : Type}.
Implicit Types (w : World Row).

Lemma open_each_files (paths : list string) w :
  files (open_each paths w).2 = files w
  ∧ dirs (open_each paths w).2 = dirs w
  ∧ ∃ opened, trace (open_each paths w).2 = trace w ++ (OpenDataset <$> opened).
Proof.
  revert w. induction paths as [|path paths IH]; intros w.
  - cbn. split; [done|]. split; [done|]. exists []. by rewrite app_nil_r.
  - cbn [open_each]. unfold bind at 1 3 5. unfold open_dataset.
    destruct (files w !! path) as [ds|] eqn:Hpath.
    + set (w1 := mkWorld (files w) (dirs w) (trace w ++ [OpenDataset path])).
      destruct (IH w1) as (Hf & Hd & opened & Ht).
      unfold bind, ret. destruct (open_each paths w1) as [[dss|e] w2];
        cbn [fst snd] in *; (split; [done|]; split; [done|]);
        exists (path :: opened); rewrite Ht; subst w1;
        cbn [trace fmap list_fmap]; by rewrite <- app_assoc.
    + cbn. split; [done|]. split; [done|]. exists []. by rewrite app_nil_r.
Qed.

Lemma open_each_missing (paths : list string) w :
  ¬ Forall (λ path, is_Some (files w !! path)) paths →
  (open_each paths w).1 = Raise IOError.
Proof.
  revert w. induction paths as [|path paths IH]; intros w Hno.
  - destruct Hno. constructor.
  - cbn [open_each]. unfold bind at 1. unfold open_dataset.
    destruct (files w !! path) as [ds|] eqn:Hpath; [|done].
    set (w1 := mkWorld (files w) (dirs w) (trace w ++ [OpenDataset path])).
    specialize (IH w1). unfold bind, ret.
    destruct (open_each paths w1) as [[dss|e] w2]; cbn [fst snd] in *.
    + assert (Ok dss = Raise IOError) as Habs; [|done].
      apply IH. intros Hall. apply Hno. constructor; [by rewrite Hpath|done].
    + apply IH. intros Hall. apply Hno. constructor; [by rewrite Hpath|done].
Qed.

Lemma present_datasets (paths : list string) w :
  Forall (λ path, is_Some (files w !! path)) paths →
  ∃ dss, Forall2 (λ path ds, files w !! path = Some ds) paths dss.
Proof.
  induction 1 as [|path paths [ds Hds] _ (dss & IH)].
  - by exists [].
  - exists (ds :: dss). by constructor.
Qed.

Lemma open_mfdataset_missing env (paths : list string) w :
  ¬ Forall (λ path, is_Some (files w !! path)) paths →
  (open_mfdataset env paths w).1 = Raise IOError
  ∧ files (open_mfdataset env paths w).2 = files w
  ∧ dirs (open_mfdataset env paths w).2 = dirs w
  ∧ ∃ opened,
      trace (open_mfdataset env paths w).2
      = trace w ++ (OpenDataset <$> opened).
Proof.
  intros Hno. unfold open_mfdataset.
  destruct paths as [|path paths]; [destruct Hno; constructor|].
  pose proof (open_each_missing _ w Hno) as Hr.
  destruct (open_each_files (path :: paths) w) as (Hf & Hd & opened & Ht).
  unfold bind. destruct (open_each (path :: paths) w) as [[dss|e] w2];
    cbn [fst snd] in *; [done|].
  injection Hr as ->. split; [done|]. split; [done|]. split; [done|].
  by exists opened.
Qed.

(** Every way a run of the combine subtask can end. *)
Lemma combine_cases env config self w :
  let run := CombineTransportSubtask.run_task env config self w in
  match combined_name env config self with
  | None => run = (Raise IndexError, w)
  | Some out =>
      if bool_decide (is_Some (files w !! out)) then run = (Ok tt, w)
      else if bool_decide
                (Forall (λ path, is_Some (files w !! path))
                   (inFileNames_of env config self))
      then ∃ combined,
             run.1 = Ok tt
             ∧ files run.2 = <[out := combined]> (files w)
             ∧ dirs run.2 = dirs w
             ∧ trace run.2
               = trace w ++ (OpenDataset <$> inFileNames_of env config self)
                   ++ [WriteNetcdf out]
      else run.1 = Raise IOError
           ∧ files run.2 = files w
           ∧ dirs run.2 = dirs w
           ∧ ∃ opened, trace run.2 = trace w ++ (OpenDataset <$> opened)
  end.
Proof.
  intros run. subst run. unfold combined_name.
  destruct (head (startYears self)) as [y0|] eqn:Hy0.
  2:{ unfold CombineTransportSubtask.run_task, bind.
      by destruct (startYears self). }
  destruct (last (endYears self)) as [y1|] eqn:Hy1.
  2:{ unfold CombineTransportSubtask.run_task, bind.
      rewrite (first_item_spec _ _ _ Hy0).
      unfold CombineTransportSubtask.last_item. by rewrite Hy1. }
  case_bool_decide as Hout.
  { by apply (run_task_combined_exists env config self y0 y1). }
  assert (files w !! CombineTransportSubtask.fileName_of
                       (outputDirectory_of env config) y0 y1 = None) as Hnone.
  { destruct (files w !! _) eqn:E; [|done]. destruct Hout. by eexists. }
  case_bool_decide as Hin.
  - destruct (present_datasets _ _ Hin) as (dss & Hdss).
    destruct (run_task_combines env config self y0 y1 w dss Hy0 Hy1 Hnone Hdss)
      as (ds0 & names & _ & ->).
    eexists. by repeat split.
  - unfold CombineTransportSubtask.run_task, bind.
    rewrite (first_item_spec _ _ _ Hy0), (last_item_spec _ _ _ Hy1).
    fold (outputDirectory_of env config).
    unfold path_exists, gets.
    rewrite bool_decide_eq_false_2 by done.
    fold (inFileNames_of env config self).
    destruct (open_mfdataset_missing env _ w Hin)
      as (Hr & Hf & Hd & opened & Ht).
    destruct (open_mfdataset env (inFileNames_of env config self) w)
      as [[ds|e] w2]; cbn [fst snd] in *; [done|].
    injection Hr as ->. split; [done|]. split; [done|]. split; [done|].
    by exists opened.
Qed.

End CombineOutcomes.

(** *** What the constructor's subtasks read and write *)

Lemma zip_diag {A : Type} (l : list A) : zip l l = (λ x, (x, x)) <$> l.
Proof. induction l as [|x l IH]; [done|]. cbn. by rewrite <- IH. Qed.

Section Pipeline.
Variables (env : Env) (config : Config) (ctl : option Config).

Lemma omap_compute_nodes (l : list Z) :
  omap (compute_output env config)
    ((λ y, compute_task env config root y y 1%nat (transects_of env config))
       <$> l)
  = (λ y, ComputeTransportSubtask.outFileName_of env config y y) <$> l.
Proof. induction l as [|y l IH]; [done|]. cbn. by rewrite IH. Qed.

Lemma omap_plot_nodes {B : Type} (f : AnalysisTask → option B) :
  (∀ p it, f (plot_node ctl (transect_file env config) p it) = None) →
  omap f (plot_nodes env config ctl) = [].
Proof.
  intros Hf. unfold plot_nodes.
  induction (enumerate (transects_of env config)) as [|it l IH]; [done|].
  cbn. by rewrite Hf.
Qed.

Lemma built_compute_outputs :
  omap (compute_output env config) (built env config ctl)
  = (λ y, ComputeTransportSubtask.outFileName_of env config y y)
      <$> years_of config.
Proof.
  rewrite built_split, !omap_app.
  rewrite (omap_plot_nodes (compute_output env config)) by done.
  rewrite app_nil_r. unfold compute_nodes. rewrite omap_compute_nodes.
  reflexivity.
Qed.

Lemma built_combine :
  omap combine_of (built env config ctl)
  = [mkCombine (years_of config) (years_of config)].
Proof.
  rewrite built_split, !omap_app.
  rewrite (omap_plot_nodes combine_of) by done.
  assert (omap combine_of (compute_nodes env config) = []) as ->.
  { unfold compute_nodes. induction (years_of config) as [|y l IH]; [done|].
    cbn. exact IH. }
  reflexivity.
Qed.

Lemma combine_reads_compute_outputs :
  inFileNames_of env config (mkCombine (years_of config) (years_of config))
  = (λ y, ComputeTransportSubtask.outFileName_of env config y y)
      <$> years_of config.
Proof.
  unfold inFileNames_of. cbn [startYears endYears].
  rewrite zip_diag, <- list_fmap_compose. by apply list_fmap_ext.
Qed.

Lemma years_of_nil :
  getint config "timeSeries" "endYear"
    < getint config "timeSeries" "startYear" →
  years_of config = [].
Proof.
  intros Hlt. unfold years_of, range.
  by replace (Z.to_nat _) with 0%nat by lia.
Qed.

Lemma years_of_head_last :
  getint config "timeSeries" "startYear"
    ≤ getint config "timeSeries" "endYear" →
  head (years_of config) = Some (getint config "timeSeries" "startYear")
  ∧ last (years_of config) = Some (getint config "timeSeries" "endYear").
Proof.
  intros Hle. unfold years_of, range.
  set (sy := getint config "timeSeries" "startYear") in *.
  set (ey := getint config "timeSeries" "endYear") in *.
  assert (Z.to_nat (ey + 1 - sy) = S (Z.to_nat (ey - sy))) as -> by lia.
  split.
  - cbn. f_equal. lia.
  - rewrite seq_S, fmap_app, last_app. cbn. f_equal. lia.
Qed.

End Pipeline.

Lemma outFileName_inj env config (a b a' b' : Z) :
  ComputeTransportSubtask.outFileName_of env config a b
  = ComputeTransportSubtask.outFileName_of env config a' b' →
  a = a' ∧ b = b'.
Proof.
  unfold ComputeTransportSubtask.outFileName_of.
  intros Heq. apply String.app_inj in Heq.
  change ("/transport_" +:+ ?x) with (String.append "/transport_" x) in Heq.
  apply (String.app_inj "/transport_") in Heq.
  apply years_split in Heq as [-> Heq].
  split; [done|]. apply fmt04d_inj. by eapply append_inv_tail.
Qed.

Section PipelineProofs.
Context {Data Mesh Signs Row : Type}.
Variable transport : list string → Data → Mesh → Signs → list nat → Row.
Variables (env : Env) (config : Config).
Variables (dsMesh : Mesh) (maskFileName : string)
  (dsTransectMask : MaskFile Signs).
Variable inputs :
  ComputeTransport → HistoryFile Data * list (HistoryFile Data).
Implicit Types (w : World Row) (tasks : list ComputeTransport).

Local Abbreviation out := (output_of env config).
Local Abbreviation result := (computed_of transport dsMesh dsTransectMask inputs).

Lemma output_of_inj c c' : out c = out c' → span c = span c'.
Proof.
  unfold output_of, span. by intros [-> ->]%outFileName_inj.
Qed.

Lemma computes_run tasks :
  ∀ w,
    NoDup (span <$> tasks) →
    Forall (λ c, is_Some (restartFileName c)) tasks →
    Forall (λ c, files w !! out c = None) tasks →
    ∃ w',
      for_each tasks (λ c,
        ComputeTransportSubtask.run_task transport env config c
          (input_list inputs c) dsMesh maskFileName dsTransectMask) w
      = (Ok tt, w')
      ∧ Forall (λ c, files w' !! out c = Some (result c)) tasks
      ∧ ∀ path, path ∉ (out <$> tasks) → files w' !! path = files w !! path.
Proof.
  induction tasks as [|c tasks IH]; intros w Hnd Hr Hnone.
  - exists w. split; [done|]. split; [constructor|done].
  - apply NoDup_cons in Hnd as [Hc Hnd].
    apply Forall_cons in Hr as [[restart Hrc] Hr].
    apply Forall_cons in Hnone as [Hnc Hnone].
    cbn [for_each]. unfold bind at 1.
    erewrite run_task_recompute; [|reflexivity| |exact Hrc].
    2:{ unfold up_to_date. fold (out c). by rewrite Hnc. }
    fold (out c).
    set (w1 := mkWorld _ _ _).
    assert (∀ c', c' ∈ tasks → out c' ≠ out c) as Hne.
    { intros c' Hin Heq. apply Hc. apply output_of_inj in Heq.
      rewrite <- Heq. apply list_elem_of_fmap. by exists c'. }
    destruct (IH w1 Hnd Hr) as (w' & Hrun & Hall & Hframe).
    { apply Forall_forall. intros c' Hin. subst w1. cbn [files].
      rewrite lookup_insert_ne by (intros Heq; by apply (Hne c' Hin)).
      rewrite Forall_forall in Hnone. by apply Hnone. }
    exists w'. split; [exact Hrun|]. split.
    + constructor; [|done].
      rewrite Hframe.
      * subst w1. cbn [files]. by rewrite lookup_insert_eq.
      * intros (c' & Heq & Hin)%list_elem_of_fmap. by apply (Hne c' Hin).
    + intros path Hpath. rewrite fmap_cons, not_elem_of_cons in Hpath.
      destruct Hpath as [Hp1 Hp2]. rewrite (Hframe path Hp2).
      subst w1. cbn [files]. by rewrite lookup_insert_ne.
Qed.

(** X13.  Compute subtasks for different spans of years, run one after
    the other with their restart files known and none of their outputs
    there yet, followed by the combine subtask over the same years
    (whose combined span is none of theirs, and whose file is not there
    yet): every run succeeds, each compute subtask has left what it
    computed in its own output file, and the Time entries of the
    combined file are those of the compute subtasks' results, one after
    the other in the order of the subtasks. *)
Theorem X13_years_then_combine tasks w y0 y1 :
  NoDup (span <$> tasks) →
  Forall (λ c, is_Some (restartFileName c)) tasks →
  Forall (λ c, files w !! out c = None) tasks →
  head (startYear <$> tasks) = Some y0 →
  last (endYear <$> tasks) = Some y1 →
  (y0, y1) ∉ (span <$> tasks) →
  files w !! ComputeTransportSubtask.outFileName_of env config y0 y1 = None →
  ∃ w' combined,
    run_all transport env config dsMesh maskFileName dsTransectMask inputs
      tasks w = (Ok tt, w')
    ∧ files w' !! ComputeTransportSubtask.outFileName_of env config y0 y1
      = Some combined
    ∧ slices combined = tasks ≫= (λ c, slices (result c))
    ∧ Forall (λ c, files w' !! out c = Some (result c)) tasks.
Proof.
  intros Hnd Hr Hnone Hy0 Hy1 Hfresh Hout.
  destruct (computes_run tasks w Hnd Hr Hnone) as (w1 & Hrun & Hall & Hframe).
  unfold run_all, bind. rewrite Hrun.
  set (outc := ComputeTransportSubtask.outFileName_of env config y0 y1) in *.
  assert (outc ∉ (out <$> tasks)) as Hnotin.
  { intros (c & Heq & Hin)%list_elem_of_fmap. apply Hfresh.
    apply list_elem_of_fmap. exists c. split; [|done].
    unfold outc, output_of in Heq. unfold span.
    by apply outFileName_inj in Heq as [-> ->]. }
  assert (files w1 !! outc = None) as Hout1 by (by rewrite Hframe).
  destruct (run_task_combines env config
              (mkCombine (startYear <$> tasks) (endYear <$> tasks))
              y0 y1 w1 (result <$> tasks) Hy0 Hy1 Hout1)
    as (ds0 & names & _ & Hcomb).
  { cbn [startYears endYears]. clear -Hall.
    induction Hall as [|c tasks Hc _ IH]; [constructor|].
    cbn. constructor; [exact Hc|exact IH]. }
  rewrite Hcomb. eexists _, _. split; [reflexivity|].
  cbn [files].
  change (CombineTransportSubtask.fileName_of (outputDirectory_of env config)
            y0 y1) with outc.
  split; [by rewrite lookup_insert_eq|].
  cbn [slices]. split.
  { clear. induction tasks as [|c l IH]; [done|]. cbn. by rewrite IH. }
  apply Forall_forall. intros c Hin. rewrite Forall_forall in Hall.
  rewrite lookup_insert_ne; [by apply Hall|].
  intros Heq. apply Hnotin. rewrite Heq.
  apply list_elem_of_fmap. by exists c.
Qed.

End PipelineProofs.

(** X1.  The format [{:04d}] that every file name and every compute
    subtask name is built with renders two different years as two
    different strings, each of at least four characters. *)
Theorem X1_years_render_apart (n m : Z) :
  n ≠ m →
  Str.fmt04d n ≠ Str.fmt04d m
  ∧ (4 ≤ String.length (Str.fmt04d n))%nat
  ∧ (4 ≤ String.length (Str.fmt04d m))%nat.
Proof.
  intros Hne. split; [|split; apply fmt04d_length].
  intros Heq. by apply Hne, fmt04d_inj.
Qed.

Lemma X1_years_render_apart_witness :
  Str.fmt04d 12 ≠ Str.fmt04d 120
  ∧ (4 ≤ String.length (Str.fmt04d 12))%nat
  ∧ (4 ≤ String.length (Str.fmt04d 120))%nat.
Proof. apply (X1_years_render_apart 12 120). lia. Defined.

(** X2.  Two compute subtasks for different pairs of start and end
    year write different output files and have different subtask
    names. *)
Theorem X2_compute_names_apart env config (h h' : Store) p p' parent parent'
    sy ey sy' ey' masks masks' T T' :
  (sy, ey) ≠ (sy', ey') →
  h !! p = Some parent → h' !! p' = Some parent' →
  ComputeTransportSubtask.outFileName_of env config sy ey
    ≠ ComputeTransportSubtask.outFileName_of env config sy' ey'
  ∧ ∃ t t',
      (ComputeTransportSubtask.__init__ env config p sy ey masks T h).2
        !! List.length h = Some t
      ∧ (ComputeTransportSubtask.__init__ env config p' sy' ey' masks' T' h').2
          !! List.length h' = Some t'
      ∧ subtaskName t ≠ subtaskName t'.
Proof.
  intros Hne Hp Hp'. split.
  { intros [-> ->]%outFileName_inj. done. }
  rewrite (Compute_init_spec _ _ _ _ _ _ _ _ _ Hp).
  rewrite (Compute_init_spec _ _ _ _ _ _ _ _ _ Hp').
  eexists _, _. split; [apply lookup_new|]. split; [apply lookup_new|].
  cbn [compute_task subtaskName]. intros [= Heq].
  change (Str.fmt04d sy +:+ "-" +:+ Str.fmt04d ey
          = Str.fmt04d sy' +:+ "-" +:+ Str.fmt04d ey') in Heq.
  apply years_split in Heq as [-> Heq]. apply fmt04d_inj in Heq as ->. done.
Qed.

Lemma X2_compute_names_apart_witness :
  ComputeTransportSubtask.outFileName_of Sample.env Sample.config 3 3
    ≠ ComputeTransportSubtask.outFileName_of Sample.env Sample.config 3 4
  ∧ ∃ t t',
      (ComputeTransportSubtask.__init__ Sample.env Sample.config 0%nat 3 3
         1%nat [] [Sample.parent]).2 !! 1%nat = Some t
      ∧ (ComputeTransportSubtask.__init__ Sample.env Sample.config 0%nat 3 4
           1%nat [] [Sample.parent]).2 !! 1%nat = Some t'
      ∧ subtaskName t ≠ subtaskName t'.
Proof.
  apply (X2_compute_names_apart Sample.env Sample.config
           [Sample.parent] [Sample.parent] 0%nat 0%nat Sample.parent
           Sample.parent 3 3 3 4 1%nat 1%nat [] []);
    [discriminate|reflexivity|reflexivity].
Defined.

(** X3.  Two plot subtasks whose transect names differ and have no
    underscore declare different XML files in [setup_and_check] and have
    different subtask names. *)
Theorem X3_plot_names_apart (h h' : Store) p p' parent parent'
    plotsDirectory (self1 self2 : PlotTransport) :
  Str.occurs "_" (transect self1) = false →
  Str.occurs "_" (transect self2) = false →
  transect self1 ≠ transect self2 →
  h !! p = Some parent → h' !! p' = Some parent' →
  xmlFileNames_of plotsDirectory self1 ≠ xmlFileNames_of plotsDirectory self2
  ∧ ∃ t t',
      (PlotTransportSubtask.__init__ p (transect self1) (transectIndex self1)
         (controlConfig self1) (transportTransectFileName self1) h).2
        !! List.length h = Some t
      ∧ (PlotTransportSubtask.__init__ p' (transect self2)
           (transectIndex self2) (controlConfig self2)
           (transportTransectFileName self2) h').2
          !! List.length h' = Some t'
      ∧ subtaskName t ≠ subtaskName t'.
Proof.
  intros H1 H2 Hne Hp Hp'. split.
  - unfold xmlFileNames_of, PlotTransportSubtask.setup_and_check.
    cbn [xmlFileNames transect]. intros [= Heq]. apply Hne.
    apply String.app_inj in Heq.
    apply (String.app_inj "/transport_") in Heq.
    apply append_inv_tail in Heq. by eapply replace_inj.
  - rewrite (Plot_init_spec _ _ _ _ _ _ _ Hp), (Plot_init_spec _ _ _ _ _ _ _ Hp').
    eexists _, _. split; [apply lookup_new|]. split; [apply lookup_new|].
    cbn [plot_task subtaskName]. intros [= Heq]. apply Hne.
    change (Str.replace " " "_" (transect self1)
            = Str.replace " " "_" (transect self2)) in Heq.
    by eapply replace_inj.
Qed.

Lemma X3_plot_names_apart_witness :
  xmlFileNames_of "/plots" (mkPlot "t.geojson" "Drake Passage" 0 None None)
  ≠ xmlFileNames_of "/plots" (mkPlot "t.geojson" "Africa-Ant" 1 None None)
  ∧ ∃ t t',
      (PlotTransportSubtask.__init__ 0%nat "Drake Passage" 0 None "t.geojson"
         [Sample.parent]).2 !! 1%nat = Some t
      ∧ (PlotTransportSubtask.__init__ 0%nat "Africa-Ant" 1 None "t.geojson"
           [Sample.parent]).2 !! 1%nat = Some t'
      ∧ subtaskName t ≠ subtaskName t'.
Proof.
  apply (X3_plot_names_apart [Sample.parent] [Sample.parent]
           0%nat 0%nat Sample.parent Sample.parent "/plots"
           (mkPlot "t.geojson" "Drake Passage" 0 None None)
           (mkPlot "t.geojson" "Africa-Ant" 1 None None));
    [reflexivity|reflexivity|discriminate|reflexivity|reflexivity].
Defined.

(** Without the condition two names can share their files. *)
Example plot_names_collide :
  xmlFileNames_of "/plots" (mkPlot "t.geojson" "Drake Passage" 0 None None)
  = xmlFileNames_of "/plots" (mkPlot "t.geojson" "Drake_Passage" 1 None None).
Proof. reflexivity. Qed.

(** X4.  How [run_task] of a plot subtask fails on its input.  It raises
    [IOError] when the transport file of the run, which [_load_transport]
    opens, is missing, and [IndexError] when that file has no transect at
    the index of the subtask.  When the file of the run is there with
    such a transect and a control run is given, it raises [IOError] when
    the transport file of the control run is missing, and [IndexError]
    when that one has no transect at the index of the subtask. *)
Theorem X4_plot_failures {Row : Type} env config tName plotsDirectory self
    (w : World Row) :
  let run :=
    PlotTransportSubtask.run_task env config tName plotsDirectory self w in
  let lacks (ds : Dataset Row) :=
    (List.length (transectNames ds) ≤ transectIndex self)%nat in
  (files w !! transport_file env config = None → run.1 = Raise IOError)
  ∧ (∀ ds, files w !! transport_file env config = Some ds → lacks ds →
       run.1 = Raise IndexError)
  ∧ (∀ ds control,
       files w !! transport_file env config = Some ds → ¬ lacks ds →
       controlConfig self = Some control →
       (files w !! transport_file env control = None →
          run.1 = Raise IOError)
       ∧ (∀ ds', files w !! transport_file env control = Some ds' →
            lacks ds' → run.1 = Raise IndexError)).
Proof.
  intros run lacks. subst run lacks. cbv beta.
  rewrite plot_run_task_spec. cbv beta zeta.
  split; [by intros ->|]. split.
  - intros ds -> Hlacks. rewrite decide_False by lia. done.
  - intros ds control -> Hhas ->. rewrite decide_True by lia.
    split; [by intros ->|].
    intros ds' -> Hlacks. by rewrite decide_False by lia.
Qed.

(** The index is looked up in the file of the run before the file of the
    control run is opened. *)
Example plot_index_before_control :
  (PlotTransportSubtask.run_task Sample.env Sample.config
     "timeSeriesTransport" "/out/plots"
     (mkPlot "/masks/transportTransects.geojson" "Africa-Ant" 1
        (Some (SamplePipeline.with_years 1 2)) None)
     (mkWorld {[transport_file Sample.env Sample.config
                 := SampleCombine.year3]} ∅ [])).1
  = Raise IndexError.
Proof. vm_compute. reflexivity. Qed.




(** With no directory at all, the parents of the transport directory are
    made before it. *)
Example makedirs_parents :
  trace (ComputeTransportSubtask.run_task Sample.transport Sample.env
           Sample.config Sample.compute3 [] tt "/out/masks.nc" Sample.mask
           (Sample.world None)).2
  = [LogInfo "Computing time series of transport through transects...";
     LogInfo "  Load transport velocity data...";
     MakeDirs "/out"; MakeDirs "/out/timeseries";
     MakeDirs "/out/timeseries/transport/"].
Proof. vm_compute. reflexivity. Qed.

(** X7.  [run_task] of the combine subtask removes no file and
    overwrites none, and makes no directory: the only file that can
    differ afterwards is the combined file, and only when it was not
    there before. *)
Theorem X7_combine_keeps_files {Row : Type} env config self (w : World Row) :
  let run := CombineTransportSubtask.run_task env config self w in
  files w ⊆ files run.2
  ∧ dirs run.2 = dirs w
  ∧ (∀ path, files run.2 !! path ≠ files w !! path →
       combined_name env config self = Some path
       ∧ files w !! path = None).
Proof.
  intros run. pose proof (combine_cases env config self w) as Hc.
  fold run in Hc.
  destruct (combined_name env config self) as [out|]; [|by rewrite Hc].
  case_bool_decide as Hout; [by rewrite Hc|].
  assert (files w !! out = None) as Hnone.
  { destruct (files w !! out) eqn:E; [|done]. destruct Hout. by eexists. }
  case_bool_decide as Hin.
  - destruct Hc as (combined & _ & -> & -> & _).
    split; [by apply insert_subseteq|]. split; [done|].
    intros path Hpath. destruct (decide (out = path)) as [<-|Hne]; [done|].
    by rewrite lookup_insert_ne in Hpath.
  - destruct Hc as (_ & -> & -> & _). done.
Qed.

(** X8.  Running the combine subtask a second time changes no file;
    after a run that succeeded, a second run succeeds and changes
    nothing at all (it opens no file and logs nothing). *)
Theorem X8_combine_rerun {Row : Type} env config self (w : World Row) :
  let run := CombineTransportSubtask.run_task env config self in
  files (run (run w).2).2 = files (run w).2
  ∧ ((run w).1 = Ok tt → run (run w).2 = (Ok tt, (run w).2)).
Proof.
  intros run. subst run.
  pose proof (combine_cases env config self w) as Hc.
  pose proof (combine_cases env config self
                (CombineTransportSubtask.run_task env config self w).2) as Hc2.
  cbv zeta in Hc, Hc2.
  destruct (combined_name env config self) as [out|] eqn:Hname.
  2:{ rewrite Hc in Hc2 |- *. cbn [fst snd] in *. by rewrite Hc2. }
  destruct (decide (is_Some (files w !! out))) as [Hout|Hout].
  { rewrite bool_decide_eq_true_2 in Hc by done.
    rewrite Hc in Hc2 |- *. cbn [fst snd] in *.
    rewrite bool_decide_eq_true_2 in Hc2 by done. by rewrite Hc2. }
  rewrite bool_decide_eq_false_2 in Hc by done.
  destruct (decide (Forall (λ path, is_Some (files w !! path))
                      (inFileNames_of env config self))) as [Hin|Hin].
  - rewrite bool_decide_eq_true_2 in Hc by done.
    destruct Hc as (combined & Hr & Hf & _).
    rewrite bool_decide_eq_true_2 in Hc2.
    2:{ rewrite Hf, lookup_insert_eq. by eexists. }
    by rewrite Hc2.
  - rewrite bool_decide_eq_false_2 in Hc by done.
    destruct Hc as (Hr & Hf & _).
    rewrite Hf in Hc2. rewrite bool_decide_eq_false_2 in Hc2 by done.
    rewrite bool_decide_eq_false_2 in Hc2 by done.
    destruct Hc2 as (_ & -> & _). split; [done|]. by rewrite Hr.
Qed.

(** X9.  [run_task] of the combine subtask raises [IndexError] and
    does nothing else when a list of years is empty; when the combined
    file is missing and so is one of the per-year files, it raises
    [IOError], writes no file, and has only opened files. *)
Theorem X9_combine_failures {Row : Type} env config self (w : World Row) :
  let run := CombineTransportSubtask.run_task env config self w in
  (startYears self = [] ∨ endYears self = [] → run = (Raise IndexError, w))
  ∧ (∀ out, combined_name env config self = Some out →
       files w !! out = None →
       ¬ Forall (λ path, is_Some (files w !! path))
           (inFileNames_of env config self) →
       run.1 = Raise IOError
       ∧ files run.2 = files w
       ∧ ∃ opened, trace run.2 = trace w ++ (OpenDataset <$> opened)).
Proof.
  intros run. pose proof (combine_cases env config self w) as Hc.
  cbv zeta in Hc. fold run in Hc. split.
  - intros Hnil.
    assert (combined_name env config self = None) as Hname.
    { unfold combined_name. destruct Hnil as [->| ->]; [done|].
      by destruct (head (startYears self)). }
    by rewrite Hname in Hc.
  - intros out Hname Hout Hin. rewrite Hname in Hc.
    rewrite bool_decide_eq_false_2 in Hc by (rewrite Hout; by intros [? ?]).
    rewrite bool_decide_eq_false_2 in Hc by done.
    destruct Hc as (Hr & Hf & _ & Ht). done.
Qed.

Lemma filter_all {A : Type} (P : A → Prop) `{!∀ x, Decision (P x)}
    (l : list A) :
  Forall P l → filter P l = l.
Proof.
  induction 1 as [|x l Hx _ IH]; [done|].
  by rewrite filter_cons, decide_True, IH.
Qed.

Lemma filter_lookup_all {A : Type} (P : A → Prop) `{!∀ x, Decision (P x)}
    (l : list A) :
  (∀ j x, l !! j = Some x → filter P l !! j = Some x) → Forall P l.
Proof.
  induction l as [|y l IH]; intros Hall; [constructor|].
  rewrite filter_cons in Hall. destruct (decide (P y)) as [Hy|Hy].
  - constructor; [done|]. apply IH. intros j x Hj. exact (Hall (S j) x Hj).
  - exfalso.
    destruct (lookup_lt_is_Some_2 (y :: l) (List.length l)) as [x Hx];
      [cbn; lia|].
    apply Hall, lookup_lt_Some in Hx.
    pose proof (length_filter P l). lia.
Qed.

(** X10.  For a configuration with startYear <= endYear, the combine
    subtask that the constructor builds reads exactly the output files
    of the compute subtasks the constructor builds, in their order, and
    writes [transport_{startYear}-{endYear}.nc] in the same
    directory. *)
Theorem X10_combine_reads_compute_outputs env config ctl :
  getint config "timeSeries" "startYear"
    ≤ getint config "timeSeries" "endYear" →
  ∃ (h : Store) (c : CombineTransport),
    TimeSeriesTransport.__init__ env config ctl [] = (Ok 0%nat, h)
    ∧ omap combine_of h = [c]
    ∧ inFileNames_of env config c = omap (compute_output env config) h
    ∧ combined_name env config c
      = Some (ComputeTransportSubtask.outFileName_of env config
                (getint config "timeSeries" "startYear")
                (getint config "timeSeries" "endYear")).
Proof.
  intros Hle. eexists _, _. split; [apply init_spec|].
  split; [apply built_combine|]. split.
  - by rewrite combine_reads_compute_outputs, built_compute_outputs.
  - unfold combined_name. cbn [startYears endYears].
    destruct (years_of_head_last config Hle) as [-> ->]. reflexivity.
Qed.

Lemma X10_combine_reads_compute_outputs_witness :
  ∃ (h : Store) (c : CombineTransport),
    TimeSeriesTransport.__init__ Sample.env Sample.config None []
      = (Ok 0%nat, h)
    ∧ omap combine_of h = [c]
    ∧ inFileNames_of Sample.env Sample.config c
      = omap (compute_output Sample.env Sample.config) h
    ∧ combined_name Sample.env Sample.config c
      = Some (ComputeTransportSubtask.outFileName_of Sample.env Sample.config
                (getint Sample.config "timeSeries" "startYear")
                (getint Sample.config "timeSeries" "endYear")).
Proof.
  apply (X10_combine_reads_compute_outputs Sample.env Sample.config None).
  vm_compute. discriminate.
Defined.

(** X11.  For a configuration with endYear < startYear the constructor
    builds no compute subtask, and the combine subtask it builds raises
    [IndexError] in every run, changing nothing. *)
Theorem X11_no_year_to_compute env config ctl :
  getint config "timeSeries" "endYear"
    < getint config "timeSeries" "startYear" →
  ∃ (h : Store) (c : CombineTransport),
    TimeSeriesTransport.__init__ env config ctl [] = (Ok 0%nat, h)
    ∧ omap (compute_output env config) h = []
    ∧ omap combine_of h = [c]
    ∧ ∀ (Row : Type) (w : World Row),
        CombineTransportSubtask.run_task env config c w
        = (Raise IndexError, w).
Proof.
  intros Hlt. eexists _, _. split; [apply init_spec|].
  split; [by rewrite built_compute_outputs, years_of_nil|].
  split; [apply built_combine|].
  intros Row w. rewrite years_of_nil by done.
  pose proof (combine_cases env config (mkCombine [] []) w) as Hc.
  exact Hc.
Qed.

Lemma X11_no_year_to_compute_witness :
  ∃ (h : Store) (c : CombineTransport),
    TimeSeriesTransport.__init__ Sample.env (SamplePipeline.with_years 5 4)
      None [] = (Ok 0%nat, h)
    ∧ omap (compute_output Sample.env (SamplePipeline.with_years 5 4)) h = []
    ∧ omap combine_of h = [c]
    ∧ ∀ (Row : Type) (w : World Row),
        CombineTransportSubtask.run_task Sample.env
          (SamplePipeline.with_years 5 4) c w
        = (Raise IndexError, w).
Proof.
  apply (X11_no_year_to_compute Sample.env (SamplePipeline.with_years 5 4) None).
  vm_compute. reflexivity.
Defined.

(** X12.  For a configuration with startYear = endYear the combined
    file is the output file of the only compute subtask, so that a run
    of the combine subtask never writes: it either finds that file and
    returns, or fails with [IOError] on opening it. *)
Theorem X12_single_year_combine env config ctl :
  getint config "timeSeries" "startYear"
    = getint config "timeSeries" "endYear" →
  ∃ (h : Store) (c : CombineTransport),
    TimeSeriesTransport.__init__ env config ctl [] = (Ok 0%nat, h)
    ∧ omap combine_of h = [c]
    ∧ (Some <$> omap (compute_output env config) h)
      = [combined_name env config c]
    ∧ ∀ (Row : Type) (w : World Row),
        let run := CombineTransportSubtask.run_task env config c w in
        files run.2 = files w
        ∧ (run.1 = Ok tt ∨ run.1 = Raise IOError).
Proof.
  intros Heq. eexists _, _. split; [apply init_spec|].
  split; [apply built_combine|].
  assert (years_of config = [getint config "timeSeries" "startYear"])
    as Hyears.
  { unfold years_of, range. rewrite <- Heq.
    replace (Z.to_nat _) with 1%nat by lia. cbn. do 2 f_equal. lia. }
  split.
  { rewrite built_compute_outputs, Hyears. reflexivity. }
  intros Row w run. subst run.
  pose proof (combine_cases env config
                (mkCombine (years_of config) (years_of config)) w) as Hc.
  cbv zeta in Hc. rewrite Hyears in Hc |- *.
  change (combined_name env config _)
    with (Some (ComputeTransportSubtask.outFileName_of env config
                  (getint config "timeSeries" "startYear")
                  (getint config "timeSeries" "startYear"))) in Hc.
  cbv iota beta in Hc.
  set (out := ComputeTransportSubtask.outFileName_of _ _ _ _) in Hc.
  destruct (decide (is_Some (files w !! out))) as [Hout|Hout].
  - rewrite bool_decide_eq_true_2 in Hc by done. rewrite Hc.
    split; [done|by left].
  - rewrite bool_decide_eq_false_2 in Hc by done.
    rewrite bool_decide_eq_false_2 in Hc.
    + destruct Hc as (Hr & Hf & _). split; [done|by right].
    + intros Hall. apply Forall_cons in Hall as [Hall _]. by apply Hout.
Qed.

Lemma X12_single_year_combine_witness :
  ∃ (h : Store) (c : CombineTransport),
    TimeSeriesTransport.__init__ Sample.env (SamplePipeline.with_years 7 7)
      None [] = (Ok 0%nat, h)
    ∧ omap combine_of h = [c]
    ∧ (Some <$> omap (compute_output Sample.env (SamplePipeline.with_years 7 7)) h)
      = [combined_name Sample.env (SamplePipeline.with_years 7 7) c]
    ∧ ∀ (Row : Type) (w : World Row),
        let run := CombineTransportSubtask.run_task Sample.env
                     (SamplePipeline.with_years 7 7) c w in
        files run.2 = files w
        ∧ (run.1 = Ok tt ∨ run.1 = Raise IOError).
Proof.
  apply (X12_single_year_combine Sample.env (SamplePipeline.with_years 7 7) None).
  reflexivity.
Defined.

Lemma X13_years_then_combine_witness :
  ∃ w' combined,
    run_all Sample.transport Sample.env Sample.config tt "/out/masks.nc"
      Sample.mask SamplePipeline.inputs
      [SamplePipeline.compute 3; SamplePipeline.compute 4] (Sample.world None)
    = (Ok tt, w')
    ∧ files w' !! ComputeTransportSubtask.outFileName_of Sample.env
                    Sample.config 3 4
      = Some combined
    ∧ slices combined
      = [SamplePipeline.compute 3; SamplePipeline.compute 4]
          ≫= (λ c, slices (computed_of Sample.transport tt Sample.mask
                             SamplePipeline.inputs c))
    ∧ Forall (λ c, files w' !! output_of Sample.env Sample.config c
                   = Some (computed_of Sample.transport tt Sample.mask
                             SamplePipeline.inputs c))
        [SamplePipeline.compute 3; SamplePipeline.compute 4].
Proof.
  apply X13_years_then_combine.
  - compute_done.
  - repeat apply Forall_cons_2; [by eexists|by eexists|constructor].
  - apply Forall_forall. intros c _. apply lookup_empty.
  - reflexivity.
  - reflexivity.
  - compute_done.
  - apply lookup_empty.
Defined.

(** X14.  The plot subtask of a transect holds the transect's index in
    the list of transects to plot, while a compute subtask writes only
    the transects that the mask file has.  So, for the objects the
    constructor builds: the index of every plot subtask selects that
    subtask's own transect in what every compute subtask writes exactly
    when every transect to plot is in the mask file (or there is no year
    to compute at all). *)
Theorem X14_plot_index_alignment
    {Data Mesh Signs Row : Type}
    (transport : list string → Data → Mesh → Signs → list nat → Row)
    env config ctl (inputFiles : list (HistoryFile Data)) first dsMesh
    (dsTransectMask : MaskFile Signs) :
  let h := (TimeSeriesTransport.__init__ env config ctl []).2 in
  (∀ i t p j tc c,
     h !! i = Some t → fields t = Plot p →
     h !! j = Some tc → fields tc = Compute c →
     transectNames (computed transport c inputFiles first dsMesh
                      dsTransectMask) !! transectIndex p
     = Some (transect p))
  ↔ (getint config "timeSeries" "endYear"
       < getint config "timeSeries" "startYear"
     ∨ Forall (λ t, t ∈ maskTransectNames dsTransectMask)
         (transects_of env config)).
Proof.
  intros h. subst h. rewrite init_spec. cbn [snd]. split.
  - intros Hall.
    destruct (decide (getint config "timeSeries" "endYear"
                        < getint config "timeSeries" "startYear"))
      as [Hlt|Hle]; [by left|right].
    destruct (lookup_lt_is_Some_2 (years_of config) 0%nat) as [y Hy].
    { unfold years_of. rewrite range_length. lia. }
    apply (filter_lookup_all (λ t, t ∈ maskTransectNames dsTransectMask)).
    intros k x Hk.
    exact (Hall _ _ _ _ _ _ (built_plot env config ctl k x Hk) eq_refl
             (built_compute env config ctl 0%nat y Hy) eq_refl).
  - intros Hcase i t p j tc c Hi Hp Hj Hc.
    destruct (built_lookup env config ctl j tc Hj)
      as [[-> ->]|[[-> ->]|[[-> ->]|[(k & y & -> & Hk & ->)
                                    |(k & tr & -> & Hk & ->)]]]];
      try done.
    destruct Hcase as [Hlt|Hcase].
    { by rewrite years_of_nil in Hk. }
    injection Hc as <-.
    destruct (built_lookup env config ctl i t Hi)
      as [[-> ->]|[[-> ->]|[[-> ->]|[(k' & y' & -> & Hk' & ->)
                                    |(k' & tr & -> & Hk' & ->)]]]];
      try done.
    injection Hp as <-.
    unfold computed. cbn [transectNames transectsToPlot transectIndex transect].
    by rewrite (filter_all (λ t, t ∈ maskTransectNames dsTransectMask)).
Qed.
